(** * SCD30 driver for Raspberry Pi: protocol engine

    A shallow embedding of [scd30_lib.cpp] (the driver) and of the
    option handling of [scd30.cpp] that the driver relies on.

    - unsigned C integers are [Z] with the wrap-around written out
      ([u8], [u16], [u32]);
    - arrays ([buff], [data]) are [list Z], indexed from 0;
    - the file-scope variables of the driver ([_co2], [_asc], ...) are the
      fields of one record threaded through every operation;
    - the two-wire transport ([TWI], from the external twowire library) is
      an interface: any deterministic state machine answering writes and
      reads with a [Wstatus];
    - every call of the transport is recorded, in order, in a ghost log, so
      that statements about the traffic on the bus can be written down;
    - the diagnostic output ([SCD_DEBUG], [p_printf]) is left out: it takes
      no part in the control flow. *)

From Stdlib Require Import ZArith List Bool Lia.
Import ListNotations.
Local Open Scope Z_scope.

(** ** Fixed-width integers *)

Definition u8 (z : Z) : Z := z mod 256.
Definition u16 (z : Z) : Z := z mod 65536.
Definition u32 (z : Z) : Z := z mod 4294967296.

(** [a[i]] for an array held as a list; cells past the end read as 0. *)
Definition idx (a : list Z) (i : Z) : Z := nth (Z.to_nat i) a 0.

(** [a[i] = v]; a store past the end leaves the array as it is. *)
Fixpoint upd_nat (a : list Z) (i : nat) (v : Z) : list Z :=
  match a, i with
  | [], _ => []
  | _ :: t, O => v :: t
  | h :: t, S j => h :: upd_nat t j v
  end.

Definition upd (a : list Z) (i : Z) (v : Z) : list Z := upd_nat a (Z.to_nat i) v.

(** [buff[i]] where [buff] is an array of [uint8_t] filled from outside. *)
Definition byte_at (buff : list Z) (i : Z) : Z := u8 (idx buff i).

(** ** Checksum codec *)

Module CRC.

(** One pass of the inner loop of [SCD30::computeCRC8]:
    [if ((crc & 0x80) != 0) crc = (uint8_t)((crc << 1) ^ 0x31); else crc <<= 1;] *)
Definition crc_round (crc : Z) : Z :=
  if negb (Z.land crc 0x80 =? 0)
  then u8 (Z.lxor (Z.shiftl crc 1) 0x31)
  else u8 (Z.shiftl crc 1).

(** [for (uint8_t i = 0 ; i < 8 ; i++)], [i] passes still to run. *)
Fixpoint crc_bits (i : nat) (crc : Z) : Z :=
  match i with
  | O => crc
  | S i' => crc_bits i' (crc_round crc)
  end.

(** [for (uint8_t x = 0 ; x < len ; x++)]: [n] bytes still to read, the
    next one at index [x]. *)
Fixpoint crc_bytes (n : nat) (x : Z) (data : list Z) (crc : Z) : Z :=
  match n with
  | O => crc
  | S n' => crc_bytes n' (x + 1) data (crc_bits 8 (u8 (Z.lxor crc (u8 (idx data x)))))
  end.

(** [uint8_t SCD30::computeCRC8(uint8_t data[], uint8_t len)] *)
Definition computeCRC8 (data : list Z) (len : Z) : Z :=
  crc_bytes (Z.to_nat (u8 len)) 0 data 0xFF.

(** [bool SCD30::checkCrc(uint8_t *data, uint8_t len, uint8_t crc_rec)] *)
Definition checkCrc (data : list Z) (len : Z) (crc_rec : Z) : bool :=
  let crc := computeCRC8 data len in
  if negb (u8 crc_rec =? crc) then false else true.

(** *** The checksum as the design document words it

    An 8-bit accumulator seeded with 0xFF; each byte is XORed in and
    followed by eight rounds; a round shifts left, and XORs the polynomial
    0x31 in when the high bit was set. The accumulator is the result: no
    reflection, no final XOR. *)

Definition high_bit (acc : Z) : bool := Z.testbit acc 7.
Definition shift_left8 (acc : Z) : Z := (2 * acc) mod 256.

Definition spec_round (acc : Z) : Z :=
  if high_bit acc then Z.lxor (shift_left8 acc) 0x31 else shift_left8 acc.

Definition spec_rounds8 (acc : Z) : Z :=
  spec_round (spec_round (spec_round (spec_round
    (spec_round (spec_round (spec_round (spec_round acc))))))).

Definition spec_byte (acc b : Z) : Z := spec_rounds8 (Z.lxor acc b).

Definition spec_compute (d : list Z) : Z := fold_left spec_byte d 0xFF.

Definition spec_verify (d : list Z) (received : Z) : bool :=
  spec_compute d =? received.

(** A byte sequence: every element is in [0, 255]. *)
Definition is_byte (b : Z) : bool := (0 <=? b) && (b <=? 255).
Definition bytes (d : list Z) : bool := forallb is_byte d.

End CRC.

(** ** The two-wire transport

    [twowire.h] belongs to an external library; the driver sees the
    transport through the calls below. [Wstatus] lists the result codes the
    driver tells apart in its [switch] statements; [I2C_OTHER] stands for
    whatever reaches their [default:] label. *)

Inductive Wstatus : Type :=
| I2C_OK
| I2C_SDA_NACK
| I2C_SCL_CLKSTR
| I2C_SDA_DATA
| I2C_OTHER.

Definition is_ok (r : Wstatus) : bool :=
  match r with I2C_OK => true | _ => false end.

Class TwoWire (Bus : Type) : Type := {
  (** [TWI.setPullup()] *)
  twi_setPullup : Bus -> Bus;
  (** [TWI.begin(interface, sda, scl)]; [true] stands for [TW_SUCCESS] *)
  twi_begin : bool -> Z -> Z -> Bus -> bool * Bus;
  (** [TWI.setClock(baudrate)] *)
  twi_setClock : Z -> Bus -> Bus;
  (** [TWI.setClockStretchLimit(limit)] *)
  twi_setClockStretchLimit : Z -> Bus -> Bus;
  (** [TWI.setSlave(address)] *)
  twi_setSlave : Z -> Bus -> Bus;
  (** [TWI.i2c_write(buff, len)], given the [len] bytes it sends *)
  i2c_write : list Z -> Bus -> Wstatus * Bus;
  (** [TWI.i2c_read(buff, len)], giving the bytes it leaves in [buff] *)
  i2c_read : Z -> Bus -> Wstatus * list Z * Bus
}.

(** What happened on the outside of the driver, oldest first. *)
Inductive Event : Type :=
| OpWrite (frame : list Z) (result : Wstatus)
| OpRead (len : Z) (result : Wstatus) (data : list Z)
| OpSleep (seconds : Z).

(** ** Floating point

    The cached readings are [float]s that the driver fills by [memcpy] from
    a 32-bit pattern; they are carried here as that pattern. The three
    conversions the driver applies to a [float] are left open. *)

Class Float32 : Type := {
  (** [(uint16_t) f] *)
  f32_to_u16 : Z -> Z;
  (** [f < 0] *)
  f32_negative : Z -> bool;
  (** [(int16_t)(f * 100)] *)
  f32_ticks : Z -> Z
}.

(** ** Driver state *)

(** [struct scd30_p] *)
Record scd30_p : Type := {
  I2C_interface : bool;
  I2C_Address : Z;
  baudrate : Z;
  sda : Z;
  scl : Z;
  pullup : bool
}.

Definition SCD30_ADDRESS : Z := 0x61.
Definition SCD30_SPEED : Z := 100.
Definition DEF_SDA : Z := 2.
Definition DEF_SCL : Z := 3.
Definition soft_I2C : bool := false.

Definition COMMAND_CONTINUOUS_MEASUREMENT : Z := 0x0010.
Definition COMMAND_SET_MEASUREMENT_INTERVAL : Z := 0x4600.
Definition COMMAND_GET_DATA_READY : Z := 0x0202.
Definition COMMAND_READ_MEASUREMENT : Z := 0x0300.
Definition COMMAND_AUTOMATIC_SELF_CALIBRATION : Z := 0x5306.
Definition COMMAND_SET_FORCED_RECALIBRATION_FACTOR : Z := 0x5204.
Definition COMMAND_SET_TEMPERATURE_OFFSET : Z := 0x5403.
Definition COMMAND_SET_ALTITUDE_COMPENSATION : Z := 0x5102.
Definition CMD_READ_SERIALNBR : Z := 0xD033.
Definition CMD_STOP_MEAS : Z := 0x0104.
Definition CMD_SOFT_RESET : Z := 0xD304.

(** The file-scope variables of [scd30_lib.cpp], the [settings] member of
    the [SCD30] object, the transport object [TWI], and the ghost log. *)
Record Driver (Bus : Type) : Type := mkDriver {
  _co2 : Z;
  _temperature : Z;
  _humidity : Z;
  _asc : bool;
  _interval : Z;
  co2HasBeenReported : bool;
  humidityHasBeenReported : bool;
  temperatureHasBeenReported : bool;
  settings : scd30_p;
  TWI : Bus;
  log : list Event
}.

Arguments mkDriver {Bus}.
Arguments _co2 {Bus}.
Arguments _temperature {Bus}.
Arguments _humidity {Bus}.
Arguments _asc {Bus}.
Arguments _interval {Bus}.
Arguments co2HasBeenReported {Bus}.
Arguments humidityHasBeenReported {Bus}.
Arguments temperatureHasBeenReported {Bus}.
Arguments settings {Bus}.
Arguments TWI {Bus}.
Arguments log {Bus}.

(** The state the driver starts from: the initialisers of the file-scope
    variables and the constructor [SCD30::SCD30]. *)
Definition initial {Bus : Type} (b : Bus) : Driver Bus :=
  mkDriver 0 0 0 true 2 true true true
    {| I2C_interface := soft_I2C; I2C_Address := SCD30_ADDRESS;
       baudrate := SCD30_SPEED; sda := DEF_SDA; scl := DEF_SCL;
       pullup := false |}
    b [].

(** The shadow configuration: what the driver remembers of the settings it
    sent. *)
Definition shadow {Bus : Type} (s : Driver Bus) : bool * Z :=
  (_asc s, _interval s).

(** The cached sample with its three staleness flags. *)
Definition cache {Bus : Type} (s : Driver Bus) : Z * Z * Z * (bool * bool * bool) :=
  (_co2 s, _temperature s, _humidity s,
   (co2HasBeenReported s, temperatureHasBeenReported s, humidityHasBeenReported s)).

(** ** A state monad for the driver *)

Definition M (Bus A : Type) : Type := Driver Bus -> A * Driver Bus.

Definition ret {Bus A : Type} (a : A) : M Bus A := fun s => (a, s).

Definition bind {Bus A B : Type} (m : M Bus A) (k : A -> M Bus B) : M Bus B :=
  fun s => let (a, s') := m s in k a s'.

Declare Scope driver_scope.
Delimit Scope driver_scope with driver.
Notation "x <- m ;; k" := (bind m (fun x => k))
  (at level 61, m at next level, right associativity) : driver_scope.
Notation "m ;; k" := (bind m (fun _ => k))
  (at level 61, right associativity) : driver_scope.
Local Open Scope driver_scope.

Definition get {Bus A : Type} (f : Driver Bus -> A) : M Bus A := fun s => (f s, s).

Definition modify {Bus : Type} (f : Driver Bus -> Driver Bus) : M Bus unit :=
  fun s => (tt, f s).

Definition set_co2 {Bus} (v : Z) (s : Driver Bus) : Driver Bus :=
  mkDriver v (_temperature s) (_humidity s) (_asc s) (_interval s)
    (co2HasBeenReported s) (humidityHasBeenReported s)
    (temperatureHasBeenReported s) (settings s) (TWI s) (log s).

Definition set_temperature {Bus} (v : Z) (s : Driver Bus) : Driver Bus :=
  mkDriver (_co2 s) v (_humidity s) (_asc s) (_interval s)
    (co2HasBeenReported s) (humidityHasBeenReported s)
    (temperatureHasBeenReported s) (settings s) (TWI s) (log s).

Definition set_humidity {Bus} (v : Z) (s : Driver Bus) : Driver Bus :=
  mkDriver (_co2 s) (_temperature s) v (_asc s) (_interval s)
    (co2HasBeenReported s) (humidityHasBeenReported s)
    (temperatureHasBeenReported s) (settings s) (TWI s) (log s).

Definition set_asc {Bus} (v : bool) (s : Driver Bus) : Driver Bus :=
  mkDriver (_co2 s) (_temperature s) (_humidity s) v (_interval s)
    (co2HasBeenReported s) (humidityHasBeenReported s)
    (temperatureHasBeenReported s) (settings s) (TWI s) (log s).

Definition set_interval {Bus} (v : Z) (s : Driver Bus) : Driver Bus :=
  mkDriver (_co2 s) (_temperature s) (_humidity s) (_asc s) v
    (co2HasBeenReported s) (humidityHasBeenReported s)
    (temperatureHasBeenReported s) (settings s) (TWI s) (log s).

Definition set_co2HasBeenReported {Bus} (v : bool) (s : Driver Bus) : Driver Bus :=
  mkDriver (_co2 s) (_temperature s) (_humidity s) (_asc s) (_interval s)
    v (humidityHasBeenReported s)
    (temperatureHasBeenReported s) (settings s) (TWI s) (log s).

Definition set_humidityHasBeenReported {Bus} (v : bool) (s : Driver Bus) : Driver Bus :=
  mkDriver (_co2 s) (_temperature s) (_humidity s) (_asc s) (_interval s)
    (co2HasBeenReported s) v
    (temperatureHasBeenReported s) (settings s) (TWI s) (log s).

Definition set_temperatureHasBeenReported {Bus} (v : bool) (s : Driver Bus) : Driver Bus :=
  mkDriver (_co2 s) (_temperature s) (_humidity s) (_asc s) (_interval s)
    (co2HasBeenReported s) (humidityHasBeenReported s)
    v (settings s) (TWI s) (log s).

(** A call that only reconfigures the transport. *)
Definition on_bus {Bus} (f : Bus -> Bus) : M Bus unit :=
  modify (fun s =>
    mkDriver (_co2 s) (_temperature s) (_humidity s) (_asc s) (_interval s)
      (co2HasBeenReported s) (humidityHasBeenReported s)
      (temperatureHasBeenReported s) (settings s) (f (TWI s)) (log s)).

(** A call of the transport that answers, with the event it leaves. *)
Definition bus_call {Bus A} (f : Bus -> A * Bus) (ev : A -> list Event) : M Bus A :=
  fun s =>
    let (a, b) := f (TWI s) in
    (a, mkDriver (_co2 s) (_temperature s) (_humidity s) (_asc s) (_interval s)
          (co2HasBeenReported s) (humidityHasBeenReported s)
          (temperatureHasBeenReported s) (settings s) b (log s ++ ev a)).

(** [sleep(seconds)]: time passes, nothing else changes. *)
Definition sleep {Bus} (seconds : Z) : M Bus unit :=
  modify (fun s =>
    mkDriver (_co2 s) (_temperature s) (_humidity s) (_asc s) (_interval s)
      (co2HasBeenReported s) (humidityHasBeenReported s)
      (temperatureHasBeenReported s) (settings s) (TWI s)
      (log s ++ [OpSleep seconds])).

(** ** The driver, [scd30_lib.cpp] *)

Section Driver.

Context {Bus : Type} `{TW : TwoWire Bus} `{FL : Float32}.

Definition TWI_write (frame : list Z) : M Bus Wstatus :=
  bus_call (i2c_write frame) (fun r => [OpWrite frame r]).

Definition TWI_read (len : Z) : M Bus (Wstatus * list Z) :=
  bus_call (i2c_read len) (fun r => [OpRead len (fst r) (snd r)]).

Definition TWI_setSlave : M Bus unit :=
  a <- get (fun s => I2C_Address (settings s)) ;;
  on_bus (twi_setSlave a).

(** The [while (1)] loop of [SCD30::sendCommand]. [retry] is the number of
    times [retry-- > 0] still holds; the source starts it at 3. A result
    other than [I2C_OK] with [retry] used up reaches the [switch], every
    label of which but [I2C_OK] returns [false]. *)
Fixpoint sendCommand_loop (retry : nat) (frame : list Z) : M Bus bool :=
  result <- TWI_write frame ;;
  match result with
  | I2C_OK => ret true
  | _ =>
      match retry with
      | S retry' => sendCommand_loop retry' frame
      | O => ret false
      end
  end.

(** [bool SCD30::sendCommand(uint16_t command, uint16_t arguments, uint8_t len)] *)
Definition sendCommand (command arguments len : Z) : M Bus bool :=
  let command := u16 command in
  let arguments := u16 arguments in
  let len := u8 len in
  TWI_setSlave ;;
  let buff := [0; 0; 0; 0; 0] in
  let buff := upd buff 0 (u8 (Z.shiftr command 8)) in
  let buff := upd buff 1 (u8 (Z.land command 0xFF)) in
  let buff :=
    if 2 <? len then
      let buff := upd buff 2 (u8 (Z.shiftr arguments 8)) in
      let buff := upd buff 3 (u8 (Z.land arguments 0xFF)) in
      upd buff 4 (CRC.computeCRC8 (skipn 2 buff) 2)
    else buff in
  sendCommand_loop 3 (firstn (Z.to_nat len) buff).

(** [bool SCD30::sendCommand(uint16_t command, uint16_t arguments)] *)
Definition sendCommand_arg (command arguments : Z) : M Bus bool :=
  sendCommand command arguments 5.

(** [bool SCD30::sendCommand(uint16_t command)] *)
Definition sendCommand_cmd (command : Z) : M Bus bool :=
  sendCommand command 0x0 2.

(** The [while (1)] loop of [SCD30::readbytes], as for [sendCommand]; the
    buffer of the last attempt is what the caller is left with. *)
Fixpoint readbytes_loop (retry : nat) (len : Z) : M Bus (bool * list Z) :=
  r <- TWI_read len ;;
  match fst r with
  | I2C_OK => ret (true, snd r)
  | _ =>
      match retry with
      | S retry' => readbytes_loop retry' len
      | O => ret (false, snd r)
      end
  end.

(** [bool SCD30::readbytes(char *buff, uint8_t len)] *)
Definition readbytes (len : Z) : M Bus (bool * list Z) :=
  let len := u8 len in
  TWI_setSlave ;;
  readbytes_loop 3 len.

(** [bool SCD30::dataAvailable()] *)
Definition dataAvailable : M Bus bool :=
  sent <- sendCommand_cmd COMMAND_GET_DATA_READY ;;
  if negb sent then ret false else
  r <- readbytes 3 ;;
  let data := snd r in
  if negb (fst r) then ret false else
  if negb (CRC.checkCrc data 2 (byte_at data 2)) then ret false else
  if byte_at data 1 =? 1 then ret true else
  ret false.

(** The locals of the parsing loop of [SCD30::readMeasurement]. *)
Record parse_state : Type := mkParse {
  p_y : Z;
  p_data : list Z;
  tempCO2 : Z;
  tempTemperature : Z;
  tempHumidity : Z
}.

Inductive field : Type := FCO2 | FTemperature | FHumidity | FCrc.

(** The labels of [switch (x)]. *)
Definition field_of (x : Z) : field :=
  if (x =? 0) || (x =? 1) || (x =? 3) || (x =? 4) then FCO2
  else if (x =? 6) || (x =? 7) || (x =? 9) || (x =? 10) then FTemperature
  else if (x =? 12) || (x =? 13) || (x =? 15) || (x =? 16) then FHumidity
  else FCrc.

(** [t <<= 8; t |= b;] on a [uint32_t]. *)
Definition push_byte (t b : Z) : Z := Z.lor (u32 (Z.shiftl t 8)) b.

(** One pass of [for (x = 0, y = 0 ; x < 18 ; x++)]; [None] is the
    [return(false)] of a checksum that does not match. *)
Definition parse_step (buff : list Z) (x : Z) (p : parse_state) : option parse_state :=
  let b := byte_at buff x in
  match field_of x with
  | FCO2 =>
      Some (mkParse (u8 (p_y p + 1)) (upd (p_data p) (p_y p) b)
              (push_byte (tempCO2 p) b) (tempTemperature p) (tempHumidity p))
  | FTemperature =>
      Some (mkParse (u8 (p_y p + 1)) (upd (p_data p) (p_y p) b)
              (tempCO2 p) (push_byte (tempTemperature p) b) (tempHumidity p))
  | FHumidity =>
      Some (mkParse (u8 (p_y p + 1)) (upd (p_data p) (p_y p) b)
              (tempCO2 p) (tempTemperature p) (push_byte (tempHumidity p) b))
  | FCrc =>
      if negb (CRC.checkCrc (p_data p) 2 b) then None
      else Some (mkParse 0 (p_data p) (tempCO2 p) (tempTemperature p) (tempHumidity p))
  end.

(** [n] passes still to run, the next one at index [x]. *)
Fixpoint parse_loop (n : nat) (buff : list Z) (x : Z) (p : parse_state) : option parse_state :=
  match n with
  | O => Some p
  | S n' =>
      match parse_step buff x p with
      | None => None
      | Some p' => parse_loop n' buff (x + 1) p'
      end
  end.

Definition parse_measurement (buff : list Z) : option parse_state :=
  parse_loop 18 buff 0 (mkParse 0 [0; 0] 0 0 0).

(** [bool SCD30::readMeasurement()] *)
Definition readMeasurement : M Bus bool :=
  avail <- dataAvailable ;;
  if negb avail then ret false else
  sent <- sendCommand_cmd COMMAND_READ_MEASUREMENT ;;
  if negb sent then ret false else
  r <- readbytes 18 ;;
  if negb (fst r) then ret false else
  match parse_measurement (snd r) with
  | None => ret false
  | Some p =>
      modify (set_co2 (tempCO2 p)) ;;
      modify (set_temperature (tempTemperature p)) ;;
      modify (set_humidity (tempHumidity p)) ;;
      modify (set_co2HasBeenReported false) ;;
      modify (set_humidityHasBeenReported false) ;;
      modify (set_temperatureHasBeenReported false) ;;
      ret true
  end.

(** [uint16_t SCD30::getCO2(void)] *)
Definition getCO2 : M Bus Z :=
  reported <- get co2HasBeenReported ;;
  (if reported then (_ <- readMeasurement ;; ret tt) else ret tt) ;;
  modify (set_co2HasBeenReported true) ;;
  v <- get _co2 ;;
  ret (f32_to_u16 v).

(** [float SCD30::getHumidity(void)] *)
Definition getHumidity : M Bus Z :=
  reported <- get humidityHasBeenReported ;;
  (if reported then (_ <- readMeasurement ;; ret tt) else ret tt) ;;
  modify (set_humidityHasBeenReported true) ;;
  get _humidity.

(** [float SCD30::getTemperature(void)] *)
Definition getTemperature : M Bus Z :=
  reported <- get temperatureHasBeenReported ;;
  (if reported then (_ <- readMeasurement ;; ret tt) else ret tt) ;;
  modify (set_temperatureHasBeenReported true) ;;
  get _temperature.

(** [bool SCD30::setAutoSelfCalibration(bool enable)] *)
Definition setAutoSelfCalibration (enable : bool) : M Bus bool :=
  modify (set_asc enable) ;;
  asc <- get _asc ;;
  if asc
  then sendCommand_arg COMMAND_AUTOMATIC_SELF_CALIBRATION 1
  else sendCommand_arg COMMAND_AUTOMATIC_SELF_CALIBRATION 0.

(** [bool SCD30::setTemperatureOffset(float tempOffset)] *)
Definition setTemperatureOffset (tempOffset : Z) : M Bus bool :=
  if f32_negative tempOffset then ret false else
  let tickOffset := f32_ticks tempOffset in
  sendCommand_arg COMMAND_SET_TEMPERATURE_OFFSET tickOffset.

(** [bool SCD30::setAltitudeCompensation(uint16_t altitude)]: the
    comparisons are made on [int], where a [uint16_t] is never negative. *)
Definition setAltitudeCompensation (altitude : Z) : M Bus bool :=
  let altitude := u16 altitude in
  if (altitude <? -1520) || (3040 <? altitude) then ret false else
  sendCommand_arg COMMAND_SET_ALTITUDE_COMPENSATION altitude.

(** [bool SCD30::beginMeasuring(uint16_t pressureOffset)] *)
Definition beginMeasuring (pressureOffset : Z) : M Bus bool :=
  let pressureOffset := u16 pressureOffset in
  let pressureOffset :=
    if (pressureOffset <? 700) || (1200 <? pressureOffset) then 0
    else pressureOffset in
  sendCommand_arg COMMAND_CONTINUOUS_MEASUREMENT pressureOffset.

(** [bool SCD30::beginMeasuring(void)] *)
Definition beginMeasuring_void : M Bus bool := beginMeasuring 0.

(** [bool SCD30::setAmbientPressure(uint16_t pressure_mbar)] *)
Definition setAmbientPressure (pressure_mbar : Z) : M Bus bool :=
  beginMeasuring (u16 pressure_mbar).

(** [bool SCD30::setForceRecalibration(uint16_t val)] *)
Definition setForceRecalibration (val : Z) : M Bus bool :=
  let val := u16 val in
  if (val <? 400) || (2000 <? val) then ret false else
  sendCommand_arg COMMAND_SET_FORCED_RECALIBRATION_FACTOR val.

(** [bool SCD30::StopMeasurement(void)] *)
Definition StopMeasurement : M Bus bool := sendCommand_cmd CMD_STOP_MEAS.

(** [bool SCD30::setMeasurementInterval(uint16_t interval)] *)
Definition setMeasurementInterval (interval : Z) : M Bus bool :=
  let interval := u16 interval in
  if (interval <? 2) || (1800 <? interval) then ret false else
  modify (set_interval interval) ;;
  i <- get _interval ;;
  sendCommand_arg COMMAND_SET_MEASUREMENT_INTERVAL i.

(** [bool SCD30::begin_scd30()] *)
Definition begin_scd30 : M Bus bool :=
  interval <- get _interval ;;
  if 0 <? interval then
    started <- beginMeasuring_void ;;
    set_ok <- (if started
               then i <- get _interval ;; setMeasurementInterval i
               else ret true) ;;
    if negb set_ok then ret false else
    asc <- get _asc ;;
    setAutoSelfCalibration asc
  else
    StopMeasurement.

(** [bool SCD30::begin(bool asc, uint16_t interval)] *)
Definition begin (asc : bool) (interval : Z) : M Bus bool :=
  modify (set_interval (u16 interval)) ;;
  modify (set_asc asc) ;;
  st <- get settings ;;
  (if pullup st then on_bus twi_setPullup else ret tt) ;;
  up <- bus_call (twi_begin (I2C_interface st) (sda st) (scl st)) (fun _ => []) ;;
  if negb up then ret false else
  on_bus (twi_setClock (baudrate st)) ;;
  on_bus (twi_setClockStretchLimit 200000) ;;
  begin_scd30.

(** [bool SCD30::SoftReset(void)] *)
Definition SoftReset : M Bus bool :=
  sent <- sendCommand_cmd CMD_SOFT_RESET ;;
  if negb sent then ret false else
  begin_scd30.

(** The [do ... while (stat == false)] loop of
    [SCD30::StartSingleMeasurement]. [retry] is the number of times
    [retry-- == 0] is still false; the source starts it at 10. The result
    is [stat] where the loop is left, by its condition or by the [goto]. *)
Fixpoint poll_loop (retry : nat) : M Bus bool :=
  stat <- dataAvailable ;;
  if negb stat then
    sleep 1 ;;
    match retry with
    | O => ret false
    | S retry' => poll_loop retry'
    end
  else ret stat.

(** [bool SCD30::StartSingleMeasurement(void)] *)
Definition StartSingleMeasurement : M Bus bool :=
  save_asc <- get _asc ;;
  save_interval <- get _interval ;;
  modify (set_asc false) ;;
  modify (set_interval 2) ;;
  started <- begin_scd30 ;;
  stat <- (if negb started then ret false else
           stat <- poll_loop 10 ;;
           if stat then readMeasurement else ret stat) ;;
  StopMeasurement ;;
  modify (set_asc save_asc) ;;
  modify (set_interval save_interval) ;;
  ret stat.

End Driver.

(** ** The option handling of the program, [scd30.cpp] *)

Definition s16 (z : Z) : Z := (z + 32768) mod 65536 - 32768.

(** The SCD30 parameters of [struct scd_par]. *)
Record scd_par : Type := mkPar {
  asc : bool;
  stop_cm : bool;
  perform_single : bool;
  interval : Z;
  frc : Z;
  temp_offset : Z;
  altitude : Z;
  pressure : Z
}.

(** [init_variables] *)
Definition init_variables : scd_par :=
  mkPar true false false 2 (-1) (-1) (-1) (-1).

(** The [case] labels of [parse_cmdline] that write an SCD30 parameter. *)
Inductive scd_option : Type :=
| Opt_a | Opt_n | Opt_m | Opt_p | Opt_i | Opt_o | Opt_f | Opt_S | Opt_k.

(** Where [parse_cmdline] leaves the program: it returns, or it calls
    [exit(EXIT_FAILURE)]. *)
Inductive parsed : Type :=
| Continue (scd : scd_par)
| Exit.

(** [void parse_cmdline(int opt, char *option, struct scd_par *scd)], for
    the labels above. [value] is the number [strtod(option, NULL)] reads,
    an integer. *)
Definition parse_cmdline (opt : scd_option) (value : Z) (scd : scd_par) : parsed :=
  match opt with
  | Opt_a =>
      Continue (mkPar true (stop_cm scd) (perform_single scd) (interval scd)
                  (frc scd) (temp_offset scd) (altitude scd) (pressure scd))
  | Opt_n =>
      Continue (mkPar false (stop_cm scd) (perform_single scd) (interval scd)
                  (frc scd) (temp_offset scd) (altitude scd) (pressure scd))
  | Opt_m =>
      let scd := mkPar (asc scd) (stop_cm scd) (perform_single scd) (interval scd)
                   (frc scd) (temp_offset scd) (s16 value) (pressure scd) in
      if (altitude scd <? -1520) || (3040 <? altitude scd) then Exit
      else if negb (pressure scd =? -1) then Exit
      else Continue scd
  | Opt_p =>
      let scd := mkPar (asc scd) (stop_cm scd) (perform_single scd) (interval scd)
                   (frc scd) (temp_offset scd) (altitude scd) (s16 value) in
      if negb (pressure scd =? 0)
         && ((pressure scd <? 700) || (1200 <? pressure scd)) then Exit
      else if negb (altitude scd =? -1) then Exit
      else Continue scd
  | Opt_i =>
      let scd := mkPar (asc scd) (stop_cm scd) (perform_single scd) (u16 value)
                   (frc scd) (temp_offset scd) (altitude scd) (pressure scd) in
      if (interval scd <? 2) || (1800 <? interval scd) then Exit
      else Continue scd
  | Opt_o =>
      let scd := mkPar (asc scd) (stop_cm scd) (perform_single scd) (interval scd)
                   (frc scd) (s16 (u16 value)) (altitude scd) (pressure scd) in
      if (temp_offset scd <? 0) || (25 <? temp_offset scd) then Exit
      else Continue scd
  | Opt_f =>
      let scd := mkPar (asc scd) (stop_cm scd) (perform_single scd) (interval scd)
                   (s16 (u16 value)) (temp_offset scd) (altitude scd) (pressure scd) in
      let scd := mkPar false (stop_cm scd) (perform_single scd) (interval scd)
                   (frc scd) (temp_offset scd) (altitude scd) (pressure scd) in
      if (frc scd <? 400) || (2000 <? frc scd) then Exit
      else Continue scd
  | Opt_S =>
      let scd := mkPar (asc scd) (stop_cm scd) true (interval scd)
                   (frc scd) (temp_offset scd) (altitude scd) (pressure scd) in
      Continue (mkPar (asc scd) (stop_cm scd) (perform_single scd) 0
                  (frc scd) (temp_offset scd) (altitude scd) (pressure scd))
  | Opt_k =>
      Continue (mkPar (asc scd) (stop_cm scd) (perform_single scd) 0
                  (frc scd) (temp_offset scd) (altitude scd) (pressure scd))
  end.

(** ** Instances to run the driver on

    A transport stub that answers from a script, and the reading of a
    32-bit pattern as an IEEE-754 single. *)

Module Stub.

Record bus : Type := mkBus {
  write_script : list Wstatus;
  read_script : list (Wstatus * list Z)
}.

(** The next scripted answer to a write; [I2C_OK] once the script is over. *)
Definition stub_write (frame : list Z) (b : bus) : Wstatus * bus :=
  match write_script b with
  | [] => (I2C_OK, b)
  | r :: rest => (r, mkBus rest (read_script b))
  end.

(** The next scripted answer to a read; a NACK with nothing read once the
    script is over. *)
Definition stub_read (len : Z) (b : bus) : Wstatus * list Z * bus :=
  match read_script b with
  | [] => (I2C_SDA_NACK, [], b)
  | (r, d) :: rest => (r, d, mkBus (write_script b) rest)
  end.

#[export] Instance stub_TwoWire : TwoWire bus := {
  twi_setPullup := fun b => b;
  twi_begin := fun _ _ _ b => (true, b);
  twi_setClock := fun _ b => b;
  twi_setClockStretchLimit := fun _ b => b;
  twi_setSlave := fun _ b => b;
  i2c_write := stub_write;
  i2c_read := stub_read
}.

Definition f32_sign (bits : Z) : bool := Z.testbit bits 31.
Definition f32_exponent (bits : Z) : Z := Z.land (Z.shiftr bits 23) 0xFF.
Definition f32_fraction (bits : Z) : Z := Z.land bits 0x7FFFFF.
Definition f32_nan (bits : Z) : bool :=
  (f32_exponent bits =? 255) && negb (f32_fraction bits =? 0).

(** The magnitude of the single, scaled by [2^149]. *)
Definition f32_scaled (bits : Z) : Z :=
  if f32_exponent bits =? 0 then f32_fraction bits
  else (f32_fraction bits + 2 ^ 23) * 2 ^ (f32_exponent bits - 1).

Definition f32_signed (bits : Z) (magnitude : Z) : Z :=
  if f32_sign bits then - magnitude else magnitude.

(** Truncation towards zero, then the width of the target type; the
    product with 100 is taken exactly. *)
#[export] Instance ieee_Float32 : Float32 := {
  f32_to_u16 := fun bits => u16 (f32_signed bits (f32_scaled bits / 2 ^ 149));
  f32_negative := fun bits =>
    f32_sign bits && negb (f32_nan bits) && negb (f32_scaled bits =? 0);
  f32_ticks := fun bits => s16 (f32_signed bits (f32_scaled bits * 100 / 2 ^ 149))
}.

(** A device that accepts every write and has the given answers to reads. *)
Definition device (reads : list (Wstatus * list Z)) : Driver bus :=
  initial (mkBus [] reads).

(** A device whose first writes are answered as scripted. *)
Definition flaky (writes : list Wstatus) (reads : list (Wstatus * list Z)) : Driver bus :=
  initial (mkBus writes reads).

(** Data-ready answers: [0x00 0x01] and [0x00 0x00] with their checksum. *)
Definition ready : Wstatus * list Z := (I2C_OK, [0x00; 0x01; 0xB0]).
Definition not_ready : Wstatus * list Z := (I2C_OK, [0x00; 0x00; 0x81]).

(** A measurement: 439.09 ppm, 27.2 C, 48.8 %RH, the example of the
    sensor's interface description. *)
Definition sample : Wstatus * list Z :=
  (I2C_OK, [0x43; 0xDB; 0xCB; 0x8C; 0x2E; 0x8F;
            0x41; 0xD9; 0x70; 0xE7; 0xFF; 0xF5;
            0x42; 0x43; 0xBF; 0x3A; 0x1B; 0x74]).

End Stub.

(** ** Vocabulary of the statements *)

(** The frames of the protocol: the opcode, big-endian; with an argument,
    the argument, big-endian, and the checksum of its two bytes. *)
Definition frame_cmd (command : Z) : list Z :=
  [u16 command / 256; u16 command mod 256].

Definition frame_arg (command arguments : Z) : list Z :=
  let hi := u16 arguments / 256 in
  let lo := u16 arguments mod 256 in
  frame_cmd command ++ [hi; lo; CRC.computeCRC8 [hi; lo] 2].

(** [attempts ok retry res l]: [l] lists the answers to the attempts of one
    transaction that may be retried [retry] times and ends with result
    [res]. Every answer but the last is a failure that was retried; the
    last is a success, or a failure with no retry left. *)
Fixpoint attempts {A : Type} (ok : A -> bool) (retry : nat) (res : bool)
    (l : list A) {struct l} : bool :=
  match l with
  | [] => false
  | a :: rest =>
      match rest with
      | [] => if ok a then res else negb res && Nat.eqb retry 0
      | _ :: _ =>
          negb (ok a) &&
          match retry with
          | S retry' => attempts ok retry' res rest
          | O => false
          end
      end
  end.

Definition write_events (frame : list Z) (results : list Wstatus) : list Event :=
  map (OpWrite frame) results.

Definition read_events (len : Z) (answers : list (Wstatus * list Z)) : list Event :=
  map (fun a => OpRead len (fst a) (snd a)) answers.

Definition answer_ok (a : Wstatus * list Z) : bool := is_ok (fst a).

(** The 256 values of a byte, to settle a fact on bytes by cases. *)
Definition all_bytes : list Z := map Z.of_nat (seq 0 256).

(** The 32-bit word of four bytes, most significant first. *)
Definition word32 (b0 b1 b2 b3 : Z) : Z :=
  b0 * 16777216 + b1 * 65536 + b2 * 256 + b3.

(** The checksum at [i + 2] is the one of the two bytes at [i]. *)
Definition group_ok (buff : list Z) (i : Z) : bool :=
  CRC.checkCrc [byte_at buff i; byte_at buff (i + 1)] 2 (byte_at buff (i + 2)).

(** The six checksums of a measurement response. *)
Definition checks_ok (buff : list Z) : bool :=
  forallb (group_ok buff) [0; 3; 6; 9; 12; 15].

(** The cache a measurement response decodes to. *)
Definition decoded (buff : list Z) : Z * Z * Z * (bool * bool * bool) :=
  (word32 (byte_at buff 0) (byte_at buff 1) (byte_at buff 3) (byte_at buff 4),
   word32 (byte_at buff 6) (byte_at buff 7) (byte_at buff 9) (byte_at buff 10),
   word32 (byte_at buff 12) (byte_at buff 13) (byte_at buff 15) (byte_at buff 16),
   (false, false, false)).

(** The writes among the events. *)
Definition is_write (e : Event) : bool :=
  match e with OpWrite _ _ => true | _ => false end.

(** A computation leaves the projection [f] of the state as it was. *)
Definition preserves {Bus A B : Type} (f : Driver Bus -> B) (m : M Bus A) : Prop :=
  forall s, f (snd (m s)) = f s.

(** A computation only adds to the log. *)
Definition extends {Bus A : Type} (m : M Bus A) : Prop :=
  forall s, exists evs, log (snd (m s)) = log s ++ evs.

(** A computation begins, whatever follows, by writing [frame]. *)
Definition begins_writing {Bus A : Type} (frame : list Z) (m : M Bus A) : Prop :=
  forall s, exists result rest,
    log (snd (m s)) = log s ++ OpWrite frame result :: rest.

(** A projection that reads neither the transport nor the log. *)
Class Internal {Bus B : Type} (f : Driver Bus -> B) : Prop :=
  internal : forall s b l,
    f (mkDriver (_co2 s) (_temperature s) (_humidity s) (_asc s) (_interval s)
         (co2HasBeenReported s) (humidityHasBeenReported s)
         (temperatureHasBeenReported s) (settings s) b l) = f s.

(** A state change that reads and writes neither the transport nor the
    log. *)
Class Quiet {Bus : Type} (g : Driver Bus -> Driver Bus) : Prop :=
  quiet : forall s, TWI (g s) = TWI s /\ log (g s) = log s.

(** ** More of the driver: the serial number *)

Section SerialNumber.

Context {Bus : Type} `{TW : TwoWire Bus}.

(** The locals of the loop of [SCD30::getSerialNumber], with the caller's
    buffer [val] and how far the pointer into it has moved. *)
Record serial_state : Type := mkSerial {
  s_val : list Z;
  s_pos : Z;
  s_y : Z;
  s_data : list Z
}.

(** The labels of [switch (x)]: [true] for the cells that hold a digit. *)
Definition serial_digit (x : Z) : bool :=
  (x =? 0) || (x =? 1) || (x =? 3) || (x =? 4) || (x =? 6) || (x =? 7).

(** One pass of [for (x = 0, y = 0 ; x < 9 ; x++)]; the right-hand result
    is the [return(false)] of a checksum that does not match, and carries
    the buffer as it is left to the caller. *)
Definition serial_step (buff : list Z) (x : Z) (st : serial_state)
    : serial_state + list Z :=
  if serial_digit x then
    inl (mkSerial (upd (s_val st) (s_pos st) (byte_at buff x)) (s_pos st + 1)
           (s_y st + 1) (upd (s_data st) (s_y st) (byte_at buff x)))
  else
    if negb (CRC.checkCrc (s_data st) 2 (byte_at buff x)) then inr (s_val st)
    else inl (mkSerial (s_val st) (s_pos st) 0 (s_data st)).

(** [n] passes still to run, the next one at index [x]. *)
Fixpoint serial_loop (n : nat) (buff : list Z) (x : Z) (st : serial_state)
    : serial_state + list Z :=
  match n with
  | O => inl st
  | S n' =>
      match serial_step buff x st with
      | inr val => inr val
      | inl st' => serial_loop n' buff (x + 1) st'
      end
  end.

(** [bool SCD30::getSerialNumber(char *val)], given the caller's buffer and
    giving it back as the call leaves it. *)
Definition getSerialNumber (val : list Z) : M Bus (bool * list Z) :=
  sent <- sendCommand_cmd CMD_READ_SERIALNBR ;;
  if negb sent then ret (false, val) else
  r <- readbytes 9 ;;
  if negb (fst r) then ret (false, val) else
  match serial_loop 9 (snd r) 0 (mkSerial val 0 0 [0; 0]) with
  | inr val' => ret (false, val')
  | inl st => ret (true, upd (s_val st) (s_pos st) 0x0)
  end.

End SerialNumber.

(** ** More of the program: the option loop and the hardware set-up *)

(** The loop of [main] over the options [getopt] yields, for the options
    that set an SCD30 parameter; an [exit] ends it. *)
Fixpoint parse_options (opts : list (scd_option * Z)) (scd : scd_par) : parsed :=
  match opts with
  | [] => Continue scd
  | (opt, value) :: rest =>
      match parse_cmdline opt value scd with
      | Exit => Exit
      | Continue scd' => parse_options rest scd'
      end
  end.

(** [TWI.close()], which [SCD30::close] passes on. *)
Class TwoWireClose (Bus : Type) : Type := {
  twi_close : Bus -> Bus
}.

(** [(float) n] for an [int16_t], as a 32-bit pattern. *)
Class Float32OfInt : Type := {
  f32_of_int16 : Z -> Z
}.

Definition EXIT_SUCCESS : Z := 0.

(** Where [init_hw] leaves the program: it returns, or the program has
    ended with a status. *)
Inductive started : Type :=
| Ready
| Exited (status : Z).

Section Program.

Context {Bus : Type} `{TW : TwoWire Bus} `{TC : TwoWireClose Bus}
  `{FL : Float32} `{FI : Float32OfInt}.

(** [void SCD30::close(void)] *)
Definition close : M Bus unit := on_bus twi_close.

(** [void closeout()], without the Dylos part: the program ends. *)
Definition closeout : M Bus started :=
  close ;;
  ret (Exited EXIT_SUCCESS).


End Program.

(** Closing the stub drops what is left of its scripts. *)
#[export] Instance stub_TwoWireClose : TwoWireClose Stub.bus := {
  twi_close := fun _ => Stub.mkBus [] []
}.

(** An [int16_t] is exactly a single: sign, exponent of the leading bit,
    and the bits below it. *)
#[export] Instance ieee_Float32OfInt : Float32OfInt := {
  f32_of_int16 := fun n =>
    if n =? 0 then 0
    else
      let a := Z.abs n in
      let e := Z.log2 a in
      (if n <? 0 then 2 ^ 31 else 0) + (e + 127) * 2 ^ 23 + (a * 2 ^ (23 - e) - 2 ^ 23)
}.

(** A transport on which the hardware cannot be set up. *)
Module Dead.

Record bus : Type := mkBus { calls : nat }.

#[export] Instance dead_TwoWire : TwoWire bus := {
  twi_setPullup := fun b => b;
  twi_begin := fun _ _ _ b => (false, b);
  twi_setClock := fun _ b => b;
  twi_setClockStretchLimit := fun _ b => b;
  twi_setSlave := fun _ b => b;
  i2c_write := fun _ b => (I2C_OTHER, mkBus (S (calls b)));
  i2c_read := fun _ b => (I2C_OTHER, [], mkBus (S (calls b)))
}.

End Dead.

(** ** More vocabulary *)

(** [bs] written over the first cells of [val]. *)
Definition overwrite (val bs : list Z) : list Z := bs ++ skipn (length bs) val.

(** The six digits of a serial-number response. *)
Definition serial_digits (buff : list Z) : list Z :=
  [byte_at buff 0; byte_at buff 1; byte_at buff 3;
   byte_at buff 4; byte_at buff 6; byte_at buff 7].

(** How many of the three groups of a serial-number response, from the
    first on, carry a matching checksum. *)
Definition serial_groups (buff : list Z) : nat :=
  if negb (group_ok buff 0) then 0
  else if negb (group_ok buff 3) then 1
  else if negb (group_ok buff 6) then 2
  else 3.

(** The seconds slept among the events. *)
Definition slept (evs : list Event) : Z :=
  fold_right (fun e acc => match e with OpSleep n => n + acc | _ => acc end) 0 evs.

(** A computation adds events that all satisfy [P]. *)
Definition emits {Bus A : Type} (P : Event -> bool) (m : M Bus A) : Prop :=
  forall s, exists evs, log (snd (m s)) = log s ++ evs /\ forallb P evs = true.

Definition no_sleep (e : Event) : bool :=
  match e with OpSleep _ => false | _ => true end.

(** What the option loop keeps true of the parameters. *)
Definition par_ok (scd : scd_par) : Prop :=
  (altitude scd = -1 \/ pressure scd = -1) /\
  (interval scd = 0 \/ 2 <= interval scd <= 1800) /\
  (frc scd = -1 \/ 400 <= frc scd <= 2000) /\
  -1 <= temp_offset scd <= 25 /\
  -1520 <= altitude scd <= 3040 /\
  (pressure scd = -1 \/ pressure scd = 0 \/ 700 <= pressure scd <= 1200).

(** * Properties *)

(** ** The checksum *)

Import CRC.

Lemma all_bytes_complete c : 0 <= c < 256 -> In c all_bytes.
Proof.
  intros Hc. unfold all_bytes. apply in_map_iff.
  exists (Z.to_nat c). split; [lia|]. apply in_seq. lia.
Qed.

Lemma byte_cases (P : Z -> bool) :
  forallb P all_bytes = true -> forall c, 0 <= c < 256 -> P c = true.
Proof.
  intros H c Hc. rewrite forallb_forall in H. apply H, all_bytes_complete, Hc.
Qed.

Lemma crc_round_spec c : 0 <= c < 256 -> crc_round c = spec_round c.
Proof.
  intros Hc. apply Z.eqb_eq.
  revert c Hc. apply (byte_cases (fun c => crc_round c =? spec_round c)).
  vm_compute. reflexivity.
Qed.

Lemma u8_range z : 0 <= u8 z < 256.
Proof. unfold u8. apply Z.mod_pos_bound. lia. Qed.

Lemma u8_small z : 0 <= z < 256 -> u8 z = z.
Proof. intros. unfold u8. apply Z.mod_small. assumption. Qed.

Lemma crc_round_range c : 0 <= crc_round c < 256.
Proof. unfold crc_round. destruct (negb _); apply u8_range. Qed.

Lemma crc_bits_range n c : 0 <= c < 256 -> 0 <= crc_bits n c < 256.
Proof.
  revert c. induction n as [|n IH]; intros c Hc; simpl; [assumption|].
  apply IH, crc_round_range.
Qed.

Lemma crc_bits_iter n c :
  0 <= c < 256 -> crc_bits n c = Nat.iter n spec_round c.
Proof.
  revert c. induction n as [|n IH]; intros c Hc; [reflexivity|].
  rewrite Nat.iter_succ_r. cbn [crc_bits].
  rewrite IH by apply crc_round_range.
  rewrite crc_round_spec by assumption. reflexivity.
Qed.

Lemma crc_bits8_spec c : 0 <= c < 256 -> crc_bits 8 c = spec_rounds8 c.
Proof. intros Hc. rewrite crc_bits_iter by assumption. reflexivity. Qed.

Lemma lxor_byte a b : 0 <= a < 256 -> 0 <= b < 256 -> 0 <= Z.lxor a b < 256.
Proof.
  intros Ha Hb. split; [apply Z.lxor_nonneg; lia|].
  destruct (Z.eq_dec (Z.lxor a b) 0) as [->|Hn]; [lia|].
  assert (H0 : 0 <= Z.lxor a b) by (apply Z.lxor_nonneg; lia).
  apply (Z.log2_lt_pow2 _ 8); [lia|].
  pose proof (Z.log2_lxor a b ltac:(lia) ltac:(lia)) as Hl.
  assert (Z.log2 a < 8).
  { destruct (Z.eq_dec a 0) as [->|]; [simpl; lia|]. apply Z.log2_lt_pow2; lia. }
  assert (Z.log2 b < 8).
  { destruct (Z.eq_dec b 0) as [->|]; [simpl; lia|]. apply Z.log2_lt_pow2; lia. }
  lia.
Qed.

Lemma bytes_cons b d : bytes (b :: d) = true -> 0 <= b < 256 /\ bytes d = true.
Proof.
  unfold bytes, is_byte. cbn [forallb]. intros H.
  apply andb_prop in H as [Hb Hd]. apply andb_prop in Hb as [H0 H1].
  split; [lia|assumption].
Qed.

Lemma idx_app_length pre b d : idx (pre ++ b :: d) (Z.of_nat (length pre)) = b.
Proof.
  unfold idx. rewrite Nat2Z.id. rewrite app_nth2 by lia.
  rewrite Nat.sub_diag. reflexivity.
Qed.

Lemma crc_bytes_spec d : forall pre crc,
  bytes d = true -> 0 <= crc < 256 ->
  crc_bytes (length d) (Z.of_nat (length pre)) (pre ++ d) crc
  = fold_left spec_byte d crc.
Proof.
  induction d as [|b d IH]; intros pre crc Hd Hc; [reflexivity|].
  apply bytes_cons in Hd as [Hb Hd].
  cbn [length crc_bytes fold_left].
  rewrite idx_app_length, (u8_small b) by assumption.
  rewrite (u8_small (Z.lxor crc b)) by (apply lxor_byte; assumption).
  rewrite crc_bits8_spec by (apply lxor_byte; assumption).
  replace (Z.of_nat (length pre) + 1) with (Z.of_nat (length (pre ++ [b])))
    by (rewrite length_app; simpl; lia).
  replace (pre ++ b :: d) with ((pre ++ [b]) ++ d)
    by (rewrite <- app_assoc; reflexivity).
  apply IH; [assumption|].
  fold (spec_byte crc b). unfold spec_byte.
  rewrite <- crc_bits8_spec by (apply lxor_byte; assumption).
  apply crc_bits_range, lxor_byte; assumption.
Qed.

Lemma crc_bytes_range n : forall x data crc,
  0 <= crc < 256 -> 0 <= crc_bytes n x data crc < 256.
Proof.
  induction n as [|n IH]; intros x data crc Hc; cbn [crc_bytes]; [assumption|].
  apply IH, crc_bits_range, u8_range.
Qed.

Lemma computeCRC8_range data len : 0 <= computeCRC8 data len < 256.
Proof. unfold computeCRC8. apply crc_bytes_range. lia. Qed.

Lemma checkCrc_true data len crc_rec :
  checkCrc data len crc_rec = true <-> u8 crc_rec = computeCRC8 data len.
Proof.
  unfold checkCrc. destruct (Z.eqb_spec (u8 crc_rec) (computeCRC8 data len)); simpl.
  - tauto.
  - split; [discriminate|contradiction].
Qed.

(** C1. For every byte sequence [d] (given with its length, which fits the
    [uint8_t] parameter), [computeCRC8] is a function of its input alone,
    [checkCrc] accepts the checksum [computeCRC8] gives, and [computeCRC8]
    computes the checksum of the design: seed 0xFF, each byte XORed in and
    followed by 8 rounds of shift-left, with the polynomial 0x31 XORed in
    when the high bit was set, no reflection and no final XOR. *)
Theorem C1_checksum_codec (d : list Z) :
  bytes d = true -> (length d <= 255)%nat ->
  let len := Z.of_nat (length d) in
  (forall d' : list Z, d' = d ->
     computeCRC8 d' (Z.of_nat (length d')) = computeCRC8 d len) /\
  checkCrc d len (computeCRC8 d len) = true /\
  computeCRC8 d len = spec_compute d /\
  spec_verify d (computeCRC8 d len) = true.
Proof.
  intros Hd Hlen len.
  assert (Hs : computeCRC8 d len = spec_compute d).
  { unfold computeCRC8, spec_compute, len.
    rewrite u8_small by lia. rewrite Nat2Z.id.
    apply (crc_bytes_spec d [] 255 Hd). lia. }
  repeat split.
  - intros d' ->. reflexivity.
  - apply checkCrc_true, u8_small, computeCRC8_range.
  - exact Hs.
  - unfold spec_verify. rewrite Hs. apply Z.eqb_refl.
Qed.

(** C1 at the two bytes [0xBE 0xEF]. *)
Lemma C1_checksum_codec_witness :
  bytes [0xBE; 0xEF] = true /\ (length [0xBE; 0xEF] <= 255)%nat /\
  checkCrc [0xBE; 0xEF] 2 (computeCRC8 [0xBE; 0xEF] 2) = true /\
  computeCRC8 [0xBE; 0xEF] 2 = spec_compute [0xBE; 0xEF].
Proof.
  assert (Hb : bytes [0xBE; 0xEF] = true) by reflexivity.
  assert (Hl : (length [0xBE; 0xEF] <= 255)%nat) by (simpl; lia).
  destruct (C1_checksum_codec [0xBE; 0xEF] Hb Hl) as (_ & Hc & Hs & _).
  split; [exact Hb|]. split; [exact Hl|]. split; [exact Hc | exact Hs].
Defined.

(** ** The state monad *)

Section Frames.

Context {Bus : Type} `{TW : TwoWire Bus} `{FL : Float32}.

Lemma preserves_ret {A B} (f : Driver Bus -> B) (a : A) : preserves f (ret a).
Proof. intros s. reflexivity. Qed.

Lemma preserves_get {A B} (f : Driver Bus -> B) (g : Driver Bus -> A) :
  preserves f (get g).
Proof. intros s. reflexivity. Qed.

Lemma preserves_bind {A A' B} (f : Driver Bus -> B) (m : M Bus A) (k : A -> M Bus A') :
  preserves f m -> (forall a, preserves f (k a)) -> preserves f (bind m k).
Proof.
  intros Hm Hk s. unfold bind. specialize (Hm s).
  destruct (m s) as [a s1]. simpl in Hm. rewrite <- Hm. apply Hk.
Qed.

Lemma preserves_if {A B} (f : Driver Bus -> B) (c : bool) (m1 m2 : M Bus A) :
  preserves f m1 -> preserves f m2 -> preserves f (if c then m1 else m2).
Proof. destruct c; auto. Qed.

Lemma preserves_modify {B} (f : Driver Bus -> B) (g : Driver Bus -> Driver Bus) :
  (forall s, f (g s) = f s) -> preserves f (modify g).
Proof. intros Hg s. apply Hg. Qed.

Lemma preserves_on_bus {B} (f : Driver Bus -> B) `{!Internal f} (g : Bus -> Bus) :
  preserves f (on_bus g).
Proof. intros s. apply internal. Qed.

Lemma preserves_sleep {B} (f : Driver Bus -> B) `{!Internal f} (n : Z) :
  preserves f (sleep n).
Proof. intros s. apply internal. Qed.

Lemma preserves_bus_call {A B} (f : Driver Bus -> B) `{!Internal f}
    (g : Bus -> A * Bus) (ev : A -> list Event) :
  preserves f (bus_call g ev).
Proof.
  intros s. unfold bus_call. destruct (g (TWI s)) as [a b]. apply internal.
Qed.

Lemma extends_ret {A} (a : A) : extends (Bus := Bus) (ret a).
Proof. intros s. exists []. simpl. rewrite app_nil_r. reflexivity. Qed.

Lemma extends_get {A} (g : Driver Bus -> A) : extends (get g).
Proof. intros s. exists []. simpl. rewrite app_nil_r. reflexivity. Qed.

Lemma extends_bind {A A'} (m : M Bus A) (k : A -> M Bus A') :
  extends m -> (forall a, extends (k a)) -> extends (bind m k).
Proof.
  intros Hm Hk s. unfold bind. destruct (Hm s) as [e1 H1].
  destruct (m s) as [a s1]. simpl in H1.
  destruct (Hk a s1) as [e2 H2]. exists (e1 ++ e2).
  rewrite H2, H1, app_assoc. reflexivity.
Qed.

Lemma extends_if {A} (c : bool) (m1 m2 : M Bus A) :
  extends m1 -> extends m2 -> extends (if c then m1 else m2).
Proof. destruct c; auto. Qed.

Lemma extends_modify (g : Driver Bus -> Driver Bus) `{!Quiet g} :
  extends (modify g).
Proof.
  intros s. exists []. simpl. rewrite app_nil_r. apply quiet.
Qed.

Lemma extends_on_bus (g : Bus -> Bus) : extends (on_bus g).
Proof. intros s. exists []. simpl. rewrite app_nil_r. reflexivity. Qed.

Lemma extends_sleep (n : Z) : extends (Bus := Bus) (sleep n).
Proof. intros s. exists [OpSleep n]. reflexivity. Qed.

Lemma extends_bus_call {A} (g : Bus -> A * Bus) (ev : A -> list Event) :
  extends (bus_call g ev).
Proof.
  intros s. unfold bus_call. destruct (g (TWI s)) as [a b].
  exists (ev a). reflexivity.
Qed.

Lemma bind_run {A A'} (m : M Bus A) (k : A -> M Bus A') (s : Driver Bus) :
  bind m k s = k (fst (m s)) (snd (m s)).
Proof. unfold bind. destruct (m s). reflexivity. Qed.

Lemma begins_writing_bind {A A'} frame (m : M Bus A) (k : A -> M Bus A') :
  begins_writing frame m -> (forall a, extends (k a)) ->
  begins_writing frame (bind m k).
Proof.
  intros Hm Hk s. rewrite bind_run.
  destruct (Hm s) as (result & rest & H1).
  destruct (Hk (fst (m s)) (snd (m s))) as [evs H2].
  exists result, (rest ++ evs). rewrite H2, H1, <- app_assoc. reflexivity.
Qed.

#[export] Instance Internal_shadow : Internal (Bus := Bus) shadow.
Proof. intros s b l. reflexivity. Qed.

#[export] Instance Internal_cache : Internal (Bus := Bus) cache.
Proof. intros s b l. reflexivity. Qed.

#[export] Instance Internal_settings : Internal (Bus := Bus) settings.
Proof. intros s b l. reflexivity. Qed.

#[export] Instance Internal_asc : Internal (Bus := Bus) _asc.
Proof. intros s b l. reflexivity. Qed.

#[export] Instance Quiet_set_co2 v : Quiet (Bus := Bus) (set_co2 v).
Proof. intros s. split; reflexivity. Qed.

#[export] Instance Quiet_set_temperature v : Quiet (Bus := Bus) (set_temperature v).
Proof. intros s. split; reflexivity. Qed.

#[export] Instance Quiet_set_humidity v : Quiet (Bus := Bus) (set_humidity v).
Proof. intros s. split; reflexivity. Qed.

#[export] Instance Quiet_set_asc v : Quiet (Bus := Bus) (set_asc v).
Proof. intros s. split; reflexivity. Qed.

#[export] Instance Quiet_set_interval v : Quiet (Bus := Bus) (set_interval v).
Proof. intros s. split; reflexivity. Qed.

#[export] Instance Quiet_set_co2HasBeenReported v :
  Quiet (Bus := Bus) (set_co2HasBeenReported v).
Proof. intros s. split; reflexivity. Qed.

#[export] Instance Quiet_set_humidityHasBeenReported v :
  Quiet (Bus := Bus) (set_humidityHasBeenReported v).
Proof. intros s. split; reflexivity. Qed.

#[export] Instance Quiet_set_temperatureHasBeenReported v :
  Quiet (Bus := Bus) (set_temperatureHasBeenReported v).
Proof. intros s. split; reflexivity. Qed.

End Frames.

Create HintDb driver.

#[export] Hint Resolve preserves_ret preserves_get preserves_bind preserves_if
  preserves_on_bus preserves_sleep preserves_bus_call
  extends_ret extends_get extends_bind extends_if extends_modify
  extends_on_bus extends_sleep extends_bus_call : driver.

(** Frame conditions of code made of binds and tests are found by search;
    a [modify] is settled by computation. *)
Ltac frame :=
  repeat first
    [ progress intros
    | solve [auto with driver typeclass_instances]
    | apply preserves_bind
    | apply extends_bind
    | apply preserves_if
    | apply extends_if
    | apply preserves_modify; intros; reflexivity
    | match goal with |- context [match ?x with _ => _ end] => destruct x end ].

Section Transport.

Context {Bus : Type} `{TW : TwoWire Bus} `{FL : Float32}.

Lemma TWI_setSlave_extends : extends (Bus := Bus) TWI_setSlave.
Proof. unfold TWI_setSlave. frame. Qed.

Lemma sendCommand_loop_preserves {B} (f : Driver Bus -> B) `{!Internal f} retry frame :
  preserves f (sendCommand_loop retry frame).
Proof.
  induction retry as [|retry IH]; cbn [sendCommand_loop]; unfold TWI_write; frame.
Qed.

Lemma sendCommand_preserves {B} (f : Driver Bus -> B) `{!Internal f} c a len :
  preserves f (sendCommand c a len).
Proof.
  unfold sendCommand, TWI_setSlave.
  apply preserves_bind; [frame|intros _]. apply sendCommand_loop_preserves; assumption.
Qed.

Lemma sendCommand_loop_extends retry frame :
  extends (Bus := Bus) (sendCommand_loop retry frame).
Proof.
  induction retry as [|retry IH]; cbn [sendCommand_loop]; unfold TWI_write; frame.
Qed.

End Transport.

(** ** Retried transactions *)

Section Attempts.

Context {A : Type} (ok : A -> bool).

Lemma attempts_nonempty retry res l : attempts ok retry res l = true -> l <> [].
Proof. destruct l; [simpl; discriminate|]. intros _ E. discriminate E. Qed.

Lemma attempts_retry a retry res l :
  ok a = false -> attempts ok retry res l = true ->
  attempts ok (S retry) res (a :: l) = true.
Proof.
  intros Ha Hl. destruct l as [|b l]; [discriminate|].
  cbn [attempts]. rewrite Ha. exact Hl.
Qed.

Lemma attempts_length l : forall retry res,
  attempts ok retry res l = true -> (1 <= length l <= S retry)%nat.
Proof.
  induction l as [|a l IH]; intros retry res H; [discriminate|].
  destruct l as [|b l]; [simpl; lia|].
  cbn [attempts] in H. apply andb_prop in H as [_ H].
  destruct retry as [|retry]; [discriminate|].
  apply IH in H. cbn [length] in *. lia.
Qed.

Lemma attempts_failed l : forall retry,
  attempts ok retry false l = true ->
  length l = S retry /\ forallb (fun a => negb (ok a)) l = true.
Proof.
  induction l as [|a l IH]; intros retry H; [discriminate|].
  destruct l as [|b l].
  - cbn in H. destruct (ok a) eqn:Ha; [discriminate|].
    apply Nat.eqb_eq in H. subst retry. cbn. rewrite Ha. auto.
  - cbn [attempts] in H. apply andb_prop in H as [Ha H].
    destruct retry as [|retry]; [discriminate|].
    apply IH in H as [Hlen Hall]. split.
    + cbn [length] in *. lia.
    + cbn [forallb] in *. rewrite Ha. exact Hall.
Qed.

Lemma attempts_succeeded l : forall retry,
  attempts ok retry true l = true ->
  exists fails a, l = fails ++ [a] /\ ok a = true /\
                  forallb (fun a => negb (ok a)) fails = true.
Proof.
  induction l as [|a l IH]; intros retry H; [discriminate|].
  destruct l as [|b l].
  - cbn in H. destruct (ok a) eqn:Ha; [|discriminate].
    exists [], a. auto.
  - cbn [attempts] in H. apply andb_prop in H as [Ha H].
    destruct retry as [|retry]; [discriminate|].
    apply IH in H as (fails & z & -> & Hz & Hf).
    exists (a :: fails), z. cbn [forallb]. rewrite Ha. auto.
Qed.

End Attempts.

Section Transactions.

Context {Bus : Type} `{TW : TwoWire Bus} `{FL : Float32}.

Lemma sendCommand_loop_spec retry frame : forall s : Driver Bus,
  exists results,
    log (snd (sendCommand_loop retry frame s)) = log s ++ write_events frame results /\
    attempts is_ok retry (fst (sendCommand_loop retry frame s)) results = true.
Proof.
  induction retry as [|retry IH]; intros s;
    cbn [sendCommand_loop]; unfold bind, TWI_write, bus_call;
    destruct (i2c_write frame (TWI s)) as [result b];
    destruct result eqn:E;
    try (exists [I2C_OK]; split; reflexivity).
  all: try (eexists [_]; split; reflexivity).
  all: match goal with
       | IH : forall s, exists _, _ |- context [sendCommand_loop _ _ ?s1] =>
           destruct (IH s1) as (results & Hlog & Hatt);
           eexists (_ :: results); split;
           [ rewrite Hlog; cbn [log]; rewrite <- app_assoc; reflexivity
           | apply attempts_retry; [reflexivity | exact Hatt] ]
       end.
Qed.

Lemma readbytes_loop_spec retry len : forall s : Driver Bus,
  exists answers,
    log (snd (readbytes_loop retry len s)) = log s ++ read_events len answers /\
    attempts answer_ok retry (fst (fst (readbytes_loop retry len s))) answers = true /\
    snd (fst (readbytes_loop retry len s)) = snd (last answers (I2C_OTHER, [])).
Proof.
  induction retry as [|retry IH]; intros s;
    cbn [readbytes_loop]; unfold bind, TWI_read, bus_call;
    destruct (i2c_read len (TWI s)) as [[result data] b];
    cbn [fst snd]; destruct result eqn:E;
    try (exists [(I2C_OK, data)]; repeat split; reflexivity).
  all: try (eexists [(_, data)]; split; [reflexivity | split; reflexivity]).
  all: match goal with
       | IH : forall s, exists _, _ |- context [readbytes_loop _ _ ?s1] =>
           destruct (IH s1) as (answers & Hlog & Hatt & Hbuf);
           eexists ((_, data) :: answers); split; [|split];
           [ rewrite Hlog; cbn [log]; rewrite <- app_assoc; reflexivity
           | apply attempts_retry; [reflexivity | exact Hatt]
           | rewrite Hbuf; pose proof (attempts_nonempty _ _ _ _ Hatt);
             destruct answers; [contradiction | reflexivity] ]
       end.
Qed.

Lemma readbytes_loop_preserves {B} (f : Driver Bus -> B) `{!Internal f} retry len :
  preserves f (readbytes_loop retry len).
Proof.
  induction retry as [|retry IH]; cbn [readbytes_loop]; unfold TWI_read; frame.
Qed.

Lemma readbytes_preserves {B} (f : Driver Bus -> B) `{!Internal f} len :
  preserves f (readbytes len).
Proof.
  unfold readbytes, TWI_setSlave.
  apply preserves_bind; [frame|intros _]. apply readbytes_loop_preserves; assumption.
Qed.

Lemma frame_cmd_sent command :
  firstn 2 (upd (upd [0; 0; 0; 0; 0] 0 (u8 (Z.shiftr (u16 command) 8))) 1
              (u8 (Z.land (u16 command) 0xFF)))
  = frame_cmd command.
Proof.
  unfold frame_cmd. cbn [upd upd_nat Z.to_nat Pos.to_nat Pos.iter_op firstn].
  assert (Hc : 0 <= u16 command < 65536) by (apply Z.mod_pos_bound; lia).
  change 0xFF with (Z.ones 8). rewrite Z.land_ones, Z.shiftr_div_pow2 by lia.
  change (2 ^ 8) with 256. unfold u8.
  rewrite Z.mod_mod by lia. rewrite (Z.mod_small (u16 command / 256)); [reflexivity|].
  split; [apply Z.div_pos; lia | apply Z.div_lt_upper_bound; lia].
Qed.

End Transactions.

Section Commands.

Context {Bus : Type} `{TW : TwoWire Bus} `{FL : Float32}.

Lemma computeCRC8_two a b rest :
  CRC.computeCRC8 (a :: b :: rest) 2 = CRC.computeCRC8 [a; b] 2.
Proof.
  unfold CRC.computeCRC8. change (Z.to_nat (u8 2)) with 2%nat.
  cbn [CRC.crc_bytes]. change (0 + 1) with 1.
  change (idx (a :: b :: rest) 0) with a. change (idx [a; b] 0) with a.
  change (idx (a :: b :: rest) 1) with b. change (idx [a; b] 1) with b.
  reflexivity.
Qed.

Lemma upd_buff (a b c d e v : Z) :
  upd [a; b; c; d; e] 0 v = [v; b; c; d; e] /\
  upd [a; b; c; d; e] 1 v = [a; v; c; d; e] /\
  upd [a; b; c; d; e] 2 v = [a; b; v; d; e] /\
  upd [a; b; c; d; e] 3 v = [a; b; c; v; e] /\
  upd [a; b; c; d; e] 4 v = [a; b; c; d; v].
Proof. repeat split. Qed.

Lemma frame_arg_sent command arguments :
  let buff := upd (upd [0; 0; 0; 0; 0] 0 (u8 (Z.shiftr (u16 command) 8))) 1
                (u8 (Z.land (u16 command) 0xFF)) in
  let buff := upd buff 2 (u8 (Z.shiftr (u16 arguments) 8)) in
  let buff := upd buff 3 (u8 (Z.land (u16 arguments) 0xFF)) in
  firstn 5 (upd buff 4 (CRC.computeCRC8 (skipn 2 buff) 2))
  = frame_arg command arguments.
Proof.
  pose proof (frame_cmd_sent command) as Hc.
  pose proof (frame_cmd_sent arguments) as Ha.
  cbv zeta. unfold frame_arg, frame_cmd in *.
  rewrite (proj1 (upd_buff _ _ _ _ _ _)) in *.
  rewrite (proj1 (proj2 (upd_buff _ _ _ _ _ _))) in *.
  rewrite (proj1 (proj2 (proj2 (upd_buff _ _ _ _ _ _)))).
  rewrite (proj1 (proj2 (proj2 (proj2 (upd_buff _ _ _ _ _ _))))).
  rewrite (proj2 (proj2 (proj2 (proj2 (upd_buff _ _ _ _ _ _))))).
  cbn [firstn skipn app] in *.
  injection Hc as Hc1 Hc2. injection Ha as Ha1 Ha2.
  rewrite computeCRC8_two. rewrite Hc1, Hc2, Ha1, Ha2. reflexivity.
Qed.

Lemma bind_setSlave {A} (k : M Bus A) (s : Driver Bus) :
  (TWI_setSlave ;; k) s = k (snd (TWI_setSlave s)).
Proof. reflexivity. Qed.

Lemma sendCommand_cmd_spec command (s : Driver Bus) :
  exists results,
    log (snd (sendCommand_cmd command s))
    = log s ++ write_events (frame_cmd command) results /\
    attempts is_ok 3 (fst (sendCommand_cmd command s)) results = true.
Proof.
  unfold sendCommand_cmd, sendCommand.
  change (2 <? u8 2) with false. cbv iota.
  change (Z.to_nat (u8 2)) with 2%nat. rewrite frame_cmd_sent.
  rewrite bind_setSlave.
  destruct (sendCommand_loop_spec 3 (frame_cmd command) (snd (TWI_setSlave s)))
    as (results & Hlog & Hatt).
  exists results. split; [rewrite Hlog; reflexivity | exact Hatt].
Qed.

Lemma sendCommand_arg_spec command arguments (s : Driver Bus) :
  exists results,
    log (snd (sendCommand_arg command arguments s))
    = log s ++ write_events (frame_arg command arguments) results /\
    attempts is_ok 3 (fst (sendCommand_arg command arguments s)) results = true.
Proof.
  unfold sendCommand_arg, sendCommand.
  change (2 <? u8 5) with true. cbv iota.
  change (Z.to_nat (u8 5)) with 5%nat.
  pose proof (frame_arg_sent command arguments) as Hf. cbv zeta in Hf |- *.
  rewrite Hf.
  rewrite bind_setSlave.
  destruct (sendCommand_loop_spec 3 (frame_arg command arguments) (snd (TWI_setSlave s)))
    as (results & Hlog & Hatt).
  exists results. split; [rewrite Hlog; reflexivity | exact Hatt].
Qed.

Lemma sendCommand_extends c a len : extends (Bus := Bus) (sendCommand c a len).
Proof.
  unfold sendCommand. apply extends_bind; [apply TWI_setSlave_extends|intros _].
  apply sendCommand_loop_extends.
Qed.

Lemma readbytes_loop_extends retry len : extends (Bus := Bus) (readbytes_loop retry len).
Proof.
  induction retry as [|retry IH]; cbn [readbytes_loop]; unfold TWI_read; frame.
Qed.

Lemma readbytes_extends len : extends (Bus := Bus) (readbytes len).
Proof.
  unfold readbytes. apply extends_bind; [apply TWI_setSlave_extends|intros _].
  apply readbytes_loop_extends.
Qed.

Lemma readbytes_spec len (s : Driver Bus) :
  exists answers,
    log (snd (readbytes len s)) = log s ++ read_events (u8 len) answers /\
    attempts answer_ok 3 (fst (fst (readbytes len s))) answers = true /\
    snd (fst (readbytes len s)) = snd (last answers (I2C_OTHER, [])).
Proof.
  unfold readbytes. rewrite bind_setSlave.
  destruct (readbytes_loop_spec 3 (u8 len) (snd (TWI_setSlave s)))
    as (answers & Hlog & Hatt & Hbuf).
  exists answers. split; [rewrite Hlog; reflexivity | split; assumption].
Qed.

End Commands.

#[export] Hint Resolve sendCommand_preserves sendCommand_extends
  readbytes_preserves readbytes_extends : driver.

(** ** Reading a measurement *)

Section Measurement.

Context {Bus : Type} `{TW : TwoWire Bus} `{FL : Float32}.

Lemma dataAvailable_preserves {B} (f : Driver Bus -> B) `{!Internal f} :
  preserves f dataAvailable.
Proof. unfold dataAvailable, sendCommand_cmd. frame. Qed.

Lemma dataAvailable_extends : extends (Bus := Bus) dataAvailable.
Proof. unfold dataAvailable, sendCommand_cmd. frame. Qed.

Lemma sendCommand_cmd_begins command :
  begins_writing (Bus := Bus) (frame_cmd command) (sendCommand_cmd command).
Proof.
  intros s.
  destruct (sendCommand_cmd_spec command s) as (results & Hlog & Hatt).
  apply attempts_nonempty in Hatt.
  destruct results as [|result results]; [contradiction|].
  exists result, (write_events (frame_cmd command) results). exact Hlog.
Qed.

(** Whatever comes of it, [dataAvailable] starts by writing the data-ready
    command. *)
Lemma dataAvailable_begins :
  begins_writing (Bus := Bus) (frame_cmd COMMAND_GET_DATA_READY) dataAvailable.
Proof.
  unfold dataAvailable.
  apply begins_writing_bind; [apply sendCommand_cmd_begins | frame].
Qed.

Lemma push_byte_add t b :
  0 <= t < 16777216 -> 0 <= b < 256 -> push_byte t b = t * 256 + b.
Proof.
  intros Ht Hb. unfold push_byte, u32.
  rewrite Z.shiftl_mul_pow2 by lia. change (2 ^ 8) with 256.
  rewrite Z.mod_small by lia.
  assert (Hland : Z.land (t * 256) b = 0); [|
    rewrite <- (Z.lxor_lor _ _ Hland); symmetry; apply Z.add_nocarry_lxor, Hland].
  apply Z.bits_inj'. intros n Hn.
  rewrite Z.land_spec, Z.bits_0.
  destruct (Z.ltb_spec n 8).
  - change 256 with (2 ^ 8). rewrite Z.mul_pow2_bits_low by lia. reflexivity.
  - destruct (Z.eq_dec b 0) as [->|Hb0]; [rewrite Z.bits_0; apply andb_false_r|].
    rewrite (Z.bits_above_log2 b n); [apply andb_false_r | lia |].
    assert (Z.log2 b < 8) by (apply Z.log2_lt_pow2; lia). lia.
Qed.

Lemma byte_at_range buff i : 0 <= byte_at buff i < 256.
Proof. unfold byte_at. apply u8_range. Qed.

Lemma word32_pushed b0 b1 b2 b3 :
  0 <= b0 < 256 -> 0 <= b1 < 256 -> 0 <= b2 < 256 -> 0 <= b3 < 256 ->
  push_byte (push_byte (push_byte (push_byte 0 b0) b1) b2) b3 = word32 b0 b1 b2 b3.
Proof.
  intros H0 H1 H2 H3. unfold word32.
  rewrite (push_byte_add 0 b0) by lia.
  rewrite (push_byte_add _ b1) by lia.
  rewrite (push_byte_add _ b2) by lia.
  rewrite (push_byte_add _ b3) by lia.
  lia.
Qed.

Lemma parse_measurement_pushed buff :
  parse_measurement buff =
  if checks_ok buff then
    Some (mkParse 0 [byte_at buff 15; byte_at buff 16]
      (push_byte (push_byte (push_byte (push_byte 0
         (byte_at buff 0)) (byte_at buff 1)) (byte_at buff 3)) (byte_at buff 4))
      (push_byte (push_byte (push_byte (push_byte 0
         (byte_at buff 6)) (byte_at buff 7)) (byte_at buff 9)) (byte_at buff 10))
      (push_byte (push_byte (push_byte (push_byte 0
         (byte_at buff 12)) (byte_at buff 13)) (byte_at buff 15)) (byte_at buff 16)))
  else None.
Proof.
  unfold parse_measurement, checks_ok, group_ok.
  cbv -[CRC.checkCrc byte_at push_byte].
  repeat match goal with
         | |- context [CRC.checkCrc ?a ?b ?c] => destruct (CRC.checkCrc a b c)
         end; reflexivity.
Qed.

(** The parsing loop accepts a response exactly when its six checksums
    match, and then yields the three words of the response. *)
Lemma parse_measurement_spec buff :
  match parse_measurement buff with
  | Some p =>
      checks_ok buff = true /\
      (tempCO2 p, tempTemperature p, tempHumidity p, (false, false, false))
      = decoded buff
  | None => checks_ok buff = false
  end.
Proof.
  rewrite parse_measurement_pushed.
  destruct (checks_ok buff); [|reflexivity].
  split; [reflexivity|]. unfold decoded.
  cbn [tempCO2 tempTemperature tempHumidity].
  rewrite !word32_pushed by apply byte_at_range. reflexivity.
Qed.

Lemma readMeasurement_preserves_shadow : preserves (Bus := Bus) shadow readMeasurement.
Proof.
  unfold readMeasurement, sendCommand_cmd.
  pose proof (dataAvailable_preserves shadow).
  frame.
Qed.

Lemma readMeasurement_extends : extends (Bus := Bus) readMeasurement.
Proof.
  unfold readMeasurement, sendCommand_cmd.
  pose proof dataAvailable_extends.
  frame.
Qed.

Lemma readMeasurement_begins :
  begins_writing (Bus := Bus) (frame_cmd COMMAND_GET_DATA_READY) readMeasurement.
Proof.
  unfold readMeasurement, sendCommand_cmd.
  apply begins_writing_bind; [apply dataAvailable_begins | frame].
Qed.

End Measurement.

Section Atomicity.

Context {Bus : Type} `{TW : TwoWire Bus} `{FL : Float32}.

Lemma readbytes_ok len (s : Driver Bus) :
  fst (fst (readbytes len s)) = true ->
  exists evs,
    log (snd (readbytes len s))
    = log s ++ evs ++ [OpRead (u8 len) I2C_OK (snd (fst (readbytes len s)))].
Proof.
  intros Hok. destruct (readbytes_spec len s) as (answers & Hlog & Hatt & Hbuf).
  rewrite Hok in Hatt. apply attempts_succeeded in Hatt as (fails & a & -> & Ha & _).
  rewrite last_last in Hbuf. exists (read_events (u8 len) fails).
  rewrite Hlog, Hbuf. unfold read_events. rewrite map_app. cbn [map].
  destruct a as [result data]. unfold answer_ok in Ha. cbn [fst snd] in *.
  destruct result; try discriminate. reflexivity.
Qed.

(** C4. [readMeasurement] updates the cached sample atomically: when it
    succeeds, the three cached quantities are the three words of the
    response just read, whose checksums all match, and the three
    already-reported flags are cleared; when it fails, for whatever reason,
    the three quantities and the three flags are as before. The shadow
    configuration is untouched either way. *)
Theorem C4_readMeasurement_atomic (s : Driver Bus) :
  let r := fst (readMeasurement s) in
  let s' := snd (readMeasurement s) in
  shadow s' = shadow s /\
  if r then
    exists evs buff,
      log s' = log s ++ evs ++ [OpRead 18 I2C_OK buff] /\
      checks_ok buff = true /\
      cache s' = decoded buff
  else cache s' = cache s.
Proof.
  cbv zeta. split; [apply readMeasurement_preserves_shadow|].
  unfold readMeasurement. rewrite bind_run.
  pose proof (dataAvailable_preserves cache s) as Hc1.
  destruct (dataAvailable_extends s) as [e1 He1].
  destruct (dataAvailable s) as [avail s1]. cbn [fst snd] in *.
  destruct avail; cbn [negb]; [|exact Hc1].
  rewrite bind_run.
  pose proof (sendCommand_preserves cache COMMAND_READ_MEASUREMENT 0 2 s1) as Hc2.
  destruct (sendCommand_extends COMMAND_READ_MEASUREMENT 0 2 s1) as [e2 He2].
  fold (sendCommand_cmd COMMAND_READ_MEASUREMENT) in *.
  destruct (sendCommand_cmd COMMAND_READ_MEASUREMENT s1) as [sent s2].
  cbn [fst snd] in *.
  destruct sent; cbn [negb]; [|cbn; congruence].
  rewrite bind_run.
  pose proof (readbytes_preserves cache 18 s2) as Hc3.
  pose proof (readbytes_ok 18 s2) as Hr.
  destruct (readbytes 18 s2) as [[ok buff] s3]. cbn [fst snd] in *.
  destruct ok; cbn [negb]; [|cbn; congruence].
  destruct (Hr eq_refl) as [e3 He3].
  pose proof (parse_measurement_spec buff) as Hp.
  destruct (parse_measurement buff) as [p|]; [|cbn; congruence].
  destruct Hp as [Hck Hdec].
  exists (e1 ++ e2 ++ e3), buff. split; [|split].
  - cbn. rewrite He3, He2, He1. change (u8 18) with 18.
    rewrite <- !app_assoc. reflexivity.
  - exact Hck.
  - rewrite <- Hdec. reflexivity.
Qed.

End Atomicity.

(** ** Setters, start-up and the accessors *)

Section Operations.

Context {Bus : Type} `{TW : TwoWire Bus} `{FL : Float32}.

Lemma attempts_last {A} (ok : A -> bool) d l : forall retry res,
  attempts ok retry res l = true -> res = ok (last l d).
Proof.
  induction l as [|a l IH]; intros retry res H; [discriminate|].
  destruct l as [|b l].
  - cbn in *. destruct (ok a); [auto|].
    apply andb_prop in H as [H _]. destruct res; [discriminate|reflexivity].
  - cbn [attempts] in H. apply andb_prop in H as [_ H].
    destruct retry as [|retry]; [discriminate|].
    apply IH in H. exact H.
Qed.

Lemma u16_idem z : u16 (u16 z) = u16 z.
Proof. unfold u16. apply Z.mod_mod. lia. Qed.

Lemma attempts_removelast {A} (ok : A -> bool) l : forall retry res,
  attempts ok retry res l = true ->
  forallb (fun a => negb (ok a)) (removelast l) = true.
Proof.
  induction l as [|a l IH]; intros retry res H; [reflexivity|].
  destruct l as [|b l]; [reflexivity|].
  cbn [attempts] in H. apply andb_prop in H as [Ha H].
  destruct retry as [|retry]; [discriminate|].
  apply IH in H. cbn [removelast forallb] in *. rewrite Ha. exact H.
Qed.

Lemma sendCommand_spec command arguments len (s : Driver Bus) :
  exists frame results,
    log (snd (sendCommand command arguments len s))
    = log s ++ write_events frame results /\
    attempts is_ok 3 (fst (sendCommand command arguments len s)) results = true.
Proof.
  unfold sendCommand. rewrite bind_setSlave.
  match goal with
  | |- context [sendCommand_loop 3 ?f ?s0] =>
      destruct (sendCommand_loop_spec 3 f s0) as (results & Hlog & Hatt);
      exists f, results
  end.
  split; [rewrite Hlog; reflexivity | exact Hatt].
Qed.

Lemma setAutoSelfCalibration_shadow enable (s : Driver Bus) :
  shadow (snd (setAutoSelfCalibration enable s)) = (enable, _interval s).
Proof.
  unfold setAutoSelfCalibration.
  rewrite bind_run. cbn [modify fst snd]. rewrite bind_run. cbn [get fst snd].
  cbn [_asc set_asc].
  destruct enable; unfold sendCommand_arg; rewrite sendCommand_preserves by exact _;
    reflexivity.
Qed.

Lemma setMeasurementInterval_shadow interval (s : Driver Bus) :
  if (u16 interval <? 2) || (1800 <? u16 interval)
  then setMeasurementInterval interval s = (false, s)
  else shadow (snd (setMeasurementInterval interval s)) = (_asc s, u16 interval).
Proof.
  unfold setMeasurementInterval. cbv zeta.
  destruct ((u16 interval <? 2) || (1800 <? u16 interval)); [reflexivity|].
  rewrite bind_run. cbn [modify fst snd]. rewrite bind_run. cbn [get fst snd].
  unfold sendCommand_arg. rewrite sendCommand_preserves by exact _. reflexivity.
Qed.

Lemma setForceRecalibration_preserves v :
  preserves (Bus := Bus) shadow (setForceRecalibration v).
Proof. unfold setForceRecalibration, sendCommand_arg. frame. Qed.

Lemma setAltitudeCompensation_preserves v :
  preserves (Bus := Bus) shadow (setAltitudeCompensation v).
Proof. unfold setAltitudeCompensation, sendCommand_arg. frame. Qed.

Lemma beginMeasuring_preserves v :
  preserves (Bus := Bus) shadow (beginMeasuring v).
Proof. unfold beginMeasuring, sendCommand_arg. frame. Qed.

Lemma setAmbientPressure_preserves v :
  preserves (Bus := Bus) shadow (setAmbientPressure v).
Proof. unfold setAmbientPressure. apply beginMeasuring_preserves. Qed.

Lemma setTemperatureOffset_preserves v :
  preserves (Bus := Bus) shadow (setTemperatureOffset v).
Proof. unfold setTemperatureOffset, sendCommand_arg. frame. Qed.

Lemma StopMeasurement_spec (s : Driver Bus) :
  exists results,
    log (snd (StopMeasurement s))
    = log s ++ write_events (frame_cmd CMD_STOP_MEAS) results /\
    attempts is_ok 3 (fst (StopMeasurement s)) results = true.
Proof. apply sendCommand_cmd_spec. Qed.

Lemma beginMeasuring_extends v : extends (Bus := Bus) (beginMeasuring v).
Proof. unfold beginMeasuring, sendCommand_arg. frame. Qed.

Lemma setMeasurementInterval_extends v :
  extends (Bus := Bus) (setMeasurementInterval v).
Proof. unfold setMeasurementInterval, sendCommand_arg. frame. Qed.

Lemma setAutoSelfCalibration_extends b :
  extends (Bus := Bus) (setAutoSelfCalibration b).
Proof. unfold setAutoSelfCalibration, sendCommand_arg. frame. Qed.

Lemma StopMeasurement_extends : extends (Bus := Bus) StopMeasurement.
Proof. unfold StopMeasurement, sendCommand_cmd. frame. Qed.

Lemma begin_scd30_extends : extends (Bus := Bus) begin_scd30.
Proof.
  unfold begin_scd30, beginMeasuring_void.
  pose proof beginMeasuring_extends. pose proof setMeasurementInterval_extends.
  pose proof setAutoSelfCalibration_extends. pose proof StopMeasurement_extends.
  frame.
Qed.

(** The paths of [begin_scd30]: with no interval it only stops; after a
    start that failed it goes on to the calibration command, whose result it
    returns. *)
Lemma begin_scd30_paths (s : Driver Bus) :
  let s1 := snd (beginMeasuring_void s) in
  if 0 <? _interval s then
    if fst (beginMeasuring_void s) then True
    else begin_scd30 s = setAutoSelfCalibration (_asc s1) s1
  else begin_scd30 s = StopMeasurement s.
Proof.
  cbv zeta. unfold begin_scd30. rewrite bind_run. cbn [get fst snd].
  destruct (0 <? _interval s); [|reflexivity].
  rewrite bind_run. destruct (fst (beginMeasuring_void s)); [exact I|].
  rewrite bind_run. cbn [ret fst snd negb]. rewrite bind_run. reflexivity.
Qed.

Lemma poll_loop_extends retry : extends (Bus := Bus) (poll_loop retry).
Proof.
  pose proof dataAvailable_extends.
  induction retry as [|retry IH]; cbn [poll_loop]; frame.
Qed.

Lemma setAutoSelfCalibration_asc enable (s : Driver Bus) :
  _asc (snd (setAutoSelfCalibration enable s)) = enable.
Proof.
  pose proof (setAutoSelfCalibration_shadow enable s) as Hs.
  unfold shadow in Hs. injection Hs as Ha _. exact Ha.
Qed.

Lemma begin_scd30_asc (s : Driver Bus) : _asc (snd (begin_scd30 s)) = _asc s.
Proof.
  assert (Hk : forall s1 : Driver Bus, _asc s1 = _asc s ->
    _asc (snd ((asc <- get _asc ;; setAutoSelfCalibration asc) s1)) = _asc s).
  { intros s1 H1. rewrite bind_run. cbn [get fst snd].
    rewrite setAutoSelfCalibration_asc. exact H1. }
  unfold begin_scd30. rewrite bind_run. cbn [get fst snd].
  destruct (0 <? _interval s).
  - rewrite bind_run.
    pose proof (beginMeasuring_preserves 0 s) as Hb.
    apply (f_equal fst) in Hb. cbn [shadow fst] in Hb.
    fold (@beginMeasuring_void Bus TW) in Hb.
    destruct (beginMeasuring_void s) as [started s1]. cbn [fst snd] in *.
    rewrite bind_run. destruct started.
    + rewrite bind_run. cbn [get fst snd].
      pose proof (setMeasurementInterval_shadow (_interval s1) s1) as Hi.
      destruct ((u16 (_interval s1) <? 2) || (1800 <? u16 (_interval s1))).
      * rewrite Hi. cbn. exact Hb.
      * apply (f_equal fst) in Hi. cbn [shadow fst] in Hi.
        destruct (setMeasurementInterval (_interval s1) s1) as [ok s2].
        cbn [fst snd] in *. destruct ok; cbn [negb].
        -- apply Hk. congruence.
        -- cbn. congruence.
    + cbn [ret fst snd negb]. apply Hk. exact Hb.
  - pose proof (sendCommand_preserves _asc CMD_STOP_MEAS 0 2 s) as Hs.
    exact Hs.
Qed.

Lemma begin_asc asc interval (s : Driver Bus) :
  _asc (snd (begin asc interval s)) = asc.
Proof.
  unfold begin. rewrite !bind_run. cbn [modify get fst snd].
  set (s0 := set_asc asc (set_interval (u16 interval) s)).
  match goal with
  | |- context [bus_call ?f ?e ?x] =>
      assert (Hu : _asc (snd (bus_call f e x)) = asc)
        by (rewrite (preserves_bus_call _asc f e x);
            destruct (pullup (settings s0)); reflexivity);
      destruct (bus_call f e x) as [up s1]
  end.
  cbn [fst snd] in *. destruct up; cbn [negb]; [|exact Hu].
  rewrite ?bind_run. cbn [on_bus modify fst snd].
  rewrite begin_scd30_asc. exact Hu.
Qed.

End Operations.

(** ** The protocol engine against its specification *)

Section Protocol.

Context {Bus : Type} `{TW : TwoWire Bus} `{FL : Float32}.

(** C3, as the driver has it. A send or a receive that gets any answer
    other than [I2C_OK] from the transport, a NACK like any other, is tried
    again, up to 3 more times: every attempt but the last failed, the result
    is whether the last attempt succeeded, at most 4 attempts are made, and
    failure is reported only after 4 failed attempts. *)
Theorem C3_failures_retried_three_times (command arguments len : Z) (s : Driver Bus) :
  (exists frame results,
     let r := fst (sendCommand command arguments len s) in
     log (snd (sendCommand command arguments len s))
     = log s ++ write_events frame results /\
     attempts is_ok 3 r results = true /\
     forallb (fun a => negb (is_ok a)) (removelast results) = true /\
     r = is_ok (last results I2C_OTHER) /\
     (length results <= 4)%nat /\
     (if r then True else length results = 4%nat)) /\
  (exists answers,
     let r := fst (fst (readbytes len s)) in
     log (snd (readbytes len s)) = log s ++ read_events (u8 len) answers /\
     attempts answer_ok 3 r answers = true /\
     forallb (fun a => negb (answer_ok a)) (removelast answers) = true /\
     r = answer_ok (last answers (I2C_OTHER, [])) /\
     (length answers <= 4)%nat /\
     (if r then True else length answers = 4%nat)).
Proof.
  split.
  - destruct (sendCommand_spec command arguments len s) as (frame & results & Hlog & Hatt).
    exists frame, results. cbv zeta.
    split; [exact Hlog|]. split; [exact Hatt|].
    split; [exact (attempts_removelast _ _ _ _ Hatt)|].
    split; [exact (attempts_last _ _ _ _ _ Hatt)|].
    split; [apply (attempts_length _ _ _ _ Hatt)|].
    destruct (fst (sendCommand command arguments len s)); [exact I|].
    apply (attempts_failed _ _ _ Hatt).
  - destruct (readbytes_spec len s) as (answers & Hlog & Hatt & _).
    exists answers. cbv zeta.
    split; [exact Hlog|]. split; [exact Hatt|].
    split; [exact (attempts_removelast _ _ _ _ Hatt)|].
    split; [exact (attempts_last _ _ _ _ _ Hatt)|].
    split; [apply (attempts_length _ _ _ _ Hatt)|].
    destruct (fst (fst (readbytes len s))); [exact I|].
    apply (attempts_failed _ _ _ Hatt).
Qed.

(** C5, as the driver has it. [setForceRecalibration] leaves the shadow
    auto-self-calibration flag (and the interval) as it was, whatever the
    value. It is the [-f] option of the program that turns the flag off:
    when [parse_cmdline] accepts the option, the [asc] parameter is false and
    the value is in [400, 2000], and [begin] called with these parameters
    leaves the shadow flag false. *)
Theorem C5_forced_recalibration_keeps_asc (val value : Z) (scd : scd_par)
    (s : Driver Bus) :
  shadow (snd (setForceRecalibration val s)) = shadow s /\
  match parse_cmdline Opt_f value scd with
  | Continue scd' =>
      asc scd' = false /\ 400 <= frc scd' <= 2000 /\
      _asc (snd (begin (asc scd') (interval scd') s)) = false
  | Exit => True
  end.
Proof.
  split; [apply setForceRecalibration_preserves|].
  unfold parse_cmdline. cbv zeta. cbn [frc asc interval].
  destruct (Z.ltb_spec (s16 (u16 value)) 400); [exact I|].
  destruct (Z.ltb_spec 2000 (s16 (u16 value))); [exact I|].
  cbn [orb]. cbv iota. cbn [frc asc interval].
  split; [reflexivity|]. split; [lia|]. apply begin_asc.
Qed.

(** C6, as the driver has it. The two setters do not exclude each other:
    the driver keeps no altitude and no pressure, neither setter touches the
    shadow configuration, and after [setAltitudeCompensation], whatever it
    returned, [setAmbientPressure] sends the continuous-measurement command
    with the pressure (0 when out of range) and returns what the transport
    answered; likewise [setAltitudeCompensation] after [setAmbientPressure]
    sends its command for every altitude up to 3040. The exclusion is made by
    [parse_cmdline]: it goes on after [-p] only with no altitude given, and
    after [-m] only with no pressure given. *)
Theorem C6_setters_do_not_exclude (alt press value : Z) (scd : scd_par)
    (s : Driver Bus) :
  let s1 := snd (setAltitudeCompensation alt s) in
  let r2 := fst (setAmbientPressure press s1) in
  let s2 := snd (setAmbientPressure press s1) in
  let t1 := snd (setAmbientPressure press s) in
  let q2 := fst (setAltitudeCompensation alt t1) in
  let t2 := snd (setAltitudeCompensation alt t1) in
  let sent := if (u16 press <? 700) || (1200 <? u16 press) then 0 else u16 press in
  (shadow s2 = shadow s /\
   exists results,
     log s2 = log s1 ++
       write_events (frame_arg COMMAND_CONTINUOUS_MEASUREMENT sent) results /\
     attempts is_ok 3 r2 results = true /\
     r2 = is_ok (last results I2C_OTHER)) /\
  (shadow t2 = shadow s /\
   if 3040 <? u16 alt then q2 = false /\ t2 = t1
   else exists results,
     log t2 = log t1 ++
       write_events (frame_arg COMMAND_SET_ALTITUDE_COMPENSATION (u16 alt)) results /\
     attempts is_ok 3 q2 results = true /\
     q2 = is_ok (last results I2C_OTHER)) /\
  match parse_cmdline Opt_p value scd with
  | Continue scd' => altitude scd' = -1
  | Exit => True
  end /\
  match parse_cmdline Opt_m value scd with
  | Continue scd' => pressure scd' = -1
  | Exit => True
  end.
Proof.
  cbv zeta. split; [|split; [|split]].
  - split.
    + rewrite setAmbientPressure_preserves. apply setAltitudeCompensation_preserves.
    + unfold setAmbientPressure, beginMeasuring. cbv zeta.
      rewrite !u16_idem.
      match goal with
      | |- context [sendCommand_arg ?c ?a ?x] =>
          destruct (sendCommand_arg_spec c a x) as (results & Hlog & Hatt)
      end.
      exists results. split; [exact Hlog|]. split; [exact Hatt|].
      exact (attempts_last _ _ _ _ _ Hatt).
  - split.
    + rewrite setAltitudeCompensation_preserves. apply setAmbientPressure_preserves.
    + unfold setAltitudeCompensation. cbv zeta.
      assert (Hr : 0 <= u16 alt) by (apply Z.mod_pos_bound; lia).
      destruct (Z.ltb_spec (u16 alt) (-1520)); [lia|]. cbn [orb].
      destruct (3040 <? u16 alt); [split; reflexivity|].
      match goal with
      | |- context [sendCommand_arg ?c ?a ?x] =>
          destruct (sendCommand_arg_spec c a x) as (results & Hlog & Hatt)
      end.
      exists results. split; [exact Hlog|]. split; [exact Hatt|].
      exact (attempts_last _ _ _ _ _ Hatt).
  - unfold parse_cmdline. cbv zeta. cbn [altitude pressure].
    destruct (negb (s16 value =? 0) && ((s16 value <? 700) || (1200 <? s16 value)));
      [exact I|].
    destruct (Z.eqb_spec (altitude scd) (-1)); [assumption | exact I].
  - unfold parse_cmdline. cbv zeta. cbn [altitude pressure].
    destruct ((s16 value <? -1520) || (3040 <? s16 value)); [exact I|].
    destruct (Z.eqb_spec (pressure scd) (-1)); [assumption | exact I].
Qed.

(** C7, as the driver has it. A setter that rejects its argument leaves
    the state as it was. [setForceRecalibration], [setAltitudeCompensation],
    [setAmbientPressure] and [setTemperatureOffset] never change the shadow
    configuration. [setMeasurementInterval] with a value in [2, 1800] and
    [setAutoSelfCalibration] store the new value before the transaction and
    keep it whatever the transaction reports. *)
Theorem C7_setters_and_the_shadow (v : Z) (enable : bool) (s : Driver Bus) :
  (if (u16 v <? 2) || (1800 <? u16 v)
   then setMeasurementInterval v s = (false, s)
   else shadow (snd (setMeasurementInterval v s)) = (_asc s, u16 v)) /\
  shadow (snd (setAutoSelfCalibration enable s)) = (enable, _interval s) /\
  (if (u16 v <? 400) || (2000 <? u16 v)
   then setForceRecalibration v s = (false, s)
   else shadow (snd (setForceRecalibration v s)) = shadow s) /\
  (if 3040 <? u16 v
   then setAltitudeCompensation v s = (false, s)
   else shadow (snd (setAltitudeCompensation v s)) = shadow s) /\
  shadow (snd (setAmbientPressure v s)) = shadow s /\
  (if f32_negative v
   then setTemperatureOffset v s = (false, s)
   else shadow (snd (setTemperatureOffset v s)) = shadow s).
Proof.
  split; [apply setMeasurementInterval_shadow|].
  split; [apply setAutoSelfCalibration_shadow|].
  split; [|split; [|split]].
  - pose proof (setForceRecalibration_preserves v s) as Hp.
    unfold setForceRecalibration in *. cbv zeta in *.
    destruct ((u16 v <? 400) || (2000 <? u16 v)); [reflexivity | exact Hp].
  - pose proof (setAltitudeCompensation_preserves v s) as Hp.
    unfold setAltitudeCompensation in *. cbv zeta in *.
    assert (Hr : 0 <= u16 v) by (apply Z.mod_pos_bound; lia).
    destruct (Z.ltb_spec (u16 v) (-1520)); [lia|]. cbn [orb] in *.
    destruct (3040 <? u16 v); [reflexivity | exact Hp].
  - apply setAmbientPressure_preserves.
  - pose proof (setTemperatureOffset_preserves v s) as Hp.
    unfold setTemperatureOffset in *.
    destruct (f32_negative v); [reflexivity | exact Hp].
Qed.

End Protocol.

Section Accessors.

Context {Bus : Type} `{TW : TwoWire Bus} `{FL : Float32}.

Lemma getCO2_run (s : Driver Bus) :
  getCO2 s =
  if co2HasBeenReported s
  then (f32_to_u16 (_co2 (snd (readMeasurement s))),
        set_co2HasBeenReported true (snd (readMeasurement s)))
  else (f32_to_u16 (_co2 s), set_co2HasBeenReported true s).
Proof.
  unfold getCO2. rewrite !bind_run. cbn [get modify ret fst snd].
  destruct (co2HasBeenReported s); rewrite ?bind_run; reflexivity.
Qed.

Lemma getHumidity_run (s : Driver Bus) :
  getHumidity s =
  if humidityHasBeenReported s
  then (_humidity (snd (readMeasurement s)),
        set_humidityHasBeenReported true (snd (readMeasurement s)))
  else (_humidity s, set_humidityHasBeenReported true s).
Proof.
  unfold getHumidity. rewrite !bind_run. cbn [get modify ret fst snd].
  destruct (humidityHasBeenReported s); rewrite ?bind_run; reflexivity.
Qed.

Lemma getTemperature_run (s : Driver Bus) :
  getTemperature s =
  if temperatureHasBeenReported s
  then (_temperature (snd (readMeasurement s)),
        set_temperatureHasBeenReported true (snd (readMeasurement s)))
  else (_temperature s, set_temperatureHasBeenReported true s).
Proof.
  unfold getTemperature. rewrite !bind_run. cbn [get modify ret fst snd].
  destruct (temperatureHasBeenReported s); rewrite ?bind_run; reflexivity.
Qed.

Lemma getCO2_marks_reported (s : Driver Bus) :
  co2HasBeenReported (snd (getCO2 s)) = true.
Proof. rewrite getCO2_run. destruct (co2HasBeenReported s); reflexivity. Qed.

(** C8, as the driver has it. An accessor whose already-reported flag is
    not set returns the cached value, sets its flag and leaves the transport
    and the log alone. An accessor whose flag is set first writes the
    data-ready command on the bus. [getCO2] leaves its own flag set, so a
    [getCO2] that follows a [getCO2] always puts a new transaction on the
    bus: of three consecutive calls, the second and the third do. *)
Theorem C8_accessors_and_the_cache (s : Driver Bus) :
  let ready := frame_cmd COMMAND_GET_DATA_READY in
  (if co2HasBeenReported s
   then exists result rest,
          log (snd (getCO2 s)) = log s ++ OpWrite ready result :: rest
   else getCO2 s = (f32_to_u16 (_co2 s), set_co2HasBeenReported true s)) /\
  (if humidityHasBeenReported s
   then exists result rest,
          log (snd (getHumidity s)) = log s ++ OpWrite ready result :: rest
   else getHumidity s = (_humidity s, set_humidityHasBeenReported true s)) /\
  (if temperatureHasBeenReported s
   then exists result rest,
          log (snd (getTemperature s)) = log s ++ OpWrite ready result :: rest
   else getTemperature s = (_temperature s, set_temperatureHasBeenReported true s)) /\
  co2HasBeenReported (snd (getCO2 s)) = true /\
  let s1 := snd (getCO2 s) in
  let s2 := snd (getCO2 s1) in
  (exists result rest, log s2 = log s1 ++ OpWrite ready result :: rest) /\
  (exists result rest, log (snd (getCO2 s2)) = log s2 ++ OpWrite ready result :: rest).
Proof.
  cbv zeta.
  assert (Hset : forall s0 : Driver Bus, co2HasBeenReported s0 = true ->
    exists result rest,
      log (snd (getCO2 s0))
      = log s0 ++ OpWrite (frame_cmd COMMAND_GET_DATA_READY) result :: rest).
  { intros s0 H0. rewrite getCO2_run, H0. apply readMeasurement_begins. }
  split; [|split; [|split; [|split; [|split]]]].
  - destruct (co2HasBeenReported s) eqn:E; [apply Hset, E|].
    rewrite getCO2_run, E. reflexivity.
  - rewrite getHumidity_run.
    destruct (humidityHasBeenReported s); [apply readMeasurement_begins | reflexivity].
  - rewrite getTemperature_run.
    destruct (temperatureHasBeenReported s); [apply readMeasurement_begins | reflexivity].
  - apply getCO2_marks_reported.
  - apply Hset, getCO2_marks_reported.
  - apply Hset, getCO2_marks_reported.
Qed.

(** C9. [StartSingleMeasurement] ends, on every path, by writing the
    stop-measurement command on the bus (and trying again while the transport
    fails and retries are left), and it leaves the shadow configuration, the
    auto-self-calibration flag and the interval, as it found it. *)
Theorem C9_single_measurement_stops_and_restores (s : Driver Bus) :
  let s' := snd (StartSingleMeasurement s) in
  shadow s' = shadow s /\
  exists before results stopped,
    log s' = log s ++ before ++ write_events (frame_cmd CMD_STOP_MEAS) results /\
    attempts is_ok 3 stopped results = true.
Proof.
  cbv zeta. unfold StartSingleMeasurement.
  rewrite !bind_run. cbn [get modify ret fst snd].
  set (s0 := set_interval 2 (set_asc false s)).
  destruct (begin_scd30_extends s0) as [e1 He1].
  set (started := fst (begin_scd30 s0)) in *.
  set (s1 := snd (begin_scd30 s0)) in *.
  set (body := if negb started then ret false
               else stat <- poll_loop 10 ;;
                    (if stat then readMeasurement else ret stat)).
  assert (Hbody : extends (Bus := Bus) body).
  { pose proof (poll_loop_extends 10). pose proof readMeasurement_extends.
    unfold body. frame. }
  destruct (Hbody s1) as [e2 He2].
  set (s2 := snd (body s1)) in *.
  destruct (StopMeasurement_spec s2) as (results & Hlog & Hatt).
  split; [reflexivity|].
  exists (e1 ++ e2), results, (fst (StopMeasurement s2)).
  split; [|exact Hatt].
  cbn [log set_interval set_asc]. rewrite Hlog, He2, He1.
  rewrite <- !app_assoc. reflexivity.
Qed.

(** C10. [setAmbientPressure] rejects no value. For a pressure outside
    [700, 1200] it sends the continuous-measurement command with argument 0,
    trying up to 4 times, and returns what the transport answered to the
    last attempt: it fails only when the transport does. *)
Theorem C10_pressure_out_of_range_sent_as_zero (pressure_mbar : Z) (s : Driver Bus) :
  (u16 pressure_mbar <? 700) || (1200 <? u16 pressure_mbar) = true ->
  let r := fst (setAmbientPressure pressure_mbar s) in
  exists results,
    log (snd (setAmbientPressure pressure_mbar s))
    = log s ++ write_events (frame_arg COMMAND_CONTINUOUS_MEASUREMENT 0) results /\
    attempts is_ok 3 r results = true /\
    r = is_ok (last results I2C_OTHER).
Proof.
  intros Hout. cbv zeta. unfold setAmbientPressure, beginMeasuring. cbv zeta.
  rewrite !u16_idem, Hout.
  destruct (sendCommand_arg_spec COMMAND_CONTINUOUS_MEASUREMENT 0 s)
    as (results & Hlog & Hatt).
  exists results. split; [exact Hlog|]. split; [exact Hatt|].
  exact (attempts_last _ _ _ _ _ Hatt).
Qed.

End Accessors.

(** ** The driver on the stub *)

Import Stub.

(** The checksum of the sensor's interface description. *)
Example crc_of_BEEF : CRC.computeCRC8 [0xBE; 0xEF] 2 = 0x92.
Proof. reflexivity. Qed.

(** The three exits of the single measurement: a sample is read; the start
    fails on the interval write; the device never gets ready and the poll
    gives up after 11 sleeps. Each ends with the stop command. *)
Example single_measurement_reads :
  let r := StartSingleMeasurement (device [not_ready; ready; ready; sample]) in
  fst r = true /\ shadow (snd r) = (true, 2) /\
  last (log (snd r)) (OpSleep 0) = OpWrite [0x01; 0x04] I2C_OK.
Proof. vm_compute. repeat split. Qed.

Example single_measurement_start_fails :
  let r := StartSingleMeasurement
             (flaky [I2C_OK; I2C_SDA_NACK; I2C_SDA_NACK; I2C_SDA_NACK; I2C_SDA_NACK] []) in
  fst r = false /\ shadow (snd r) = (true, 2) /\
  last (log (snd r)) (OpSleep 0) = OpWrite [0x01; 0x04] I2C_OK.
Proof. vm_compute. repeat split. Qed.

Example single_measurement_gives_up :
  let r := StartSingleMeasurement (device []) in
  fst r = false /\ shadow (snd r) = (true, 2) /\
  length (filter (fun e => match e with OpSleep _ => true | _ => false end)
            (log (snd r))) = 11%nat /\
  last (log (snd r)) (OpSleep 0) = OpWrite [0x01; 0x04] I2C_OK.
Proof. vm_compute. repeat split. Qed.

(** C2, where the driver departs from it. The device refuses the
    start-continuous-measurement command four times over and accepts what
    follows: [begin] skips the interval, still sends the auto-self-calibration
    command and returns [true]. *)
Theorem C2_begin_succeeds_after_failed_start :
  let nack := I2C_SDA_NACK in
  let r := begin true 2 (flaky [nack; nack; nack; nack] []) in
  fst (beginMeasuring_void (flaky [nack; nack; nack; nack] [])) = false /\
  fst r = true /\
  log (snd r)
  = write_events (frame_arg COMMAND_CONTINUOUS_MEASUREMENT 0) [nack; nack; nack; nack]
    ++ write_events (frame_arg COMMAND_AUTOMATIC_SELF_CALIBRATION 1) [I2C_OK].
Proof. vm_compute. repeat split. Qed.

(** What [begin] does hold to: with interval 0 only the stop command is
    sent; on a device that accepts everything the three commands go out in
    order; a refused interval or calibration command is reported. *)
Example begin_interval_zero :
  let r := begin true 0 (device []) in
  fst r = true /\ log (snd r) = [OpWrite (frame_cmd CMD_STOP_MEAS) I2C_OK].
Proof. vm_compute. repeat split. Qed.

Example begin_in_order :
  let r := begin true 5 (device []) in
  fst r = true /\
  log (snd r) = [OpWrite (frame_arg COMMAND_CONTINUOUS_MEASUREMENT 0) I2C_OK;
                 OpWrite (frame_arg COMMAND_SET_MEASUREMENT_INTERVAL 5) I2C_OK;
                 OpWrite (frame_arg COMMAND_AUTOMATIC_SELF_CALIBRATION 1) I2C_OK].
Proof. vm_compute. repeat split. Qed.

Example begin_interval_refused :
  let nack := I2C_SDA_NACK in
  let r := begin true 5 (flaky [I2C_OK; nack; nack; nack; nack] []) in
  fst r = false /\
  log (snd r) = OpWrite (frame_arg COMMAND_CONTINUOUS_MEASUREMENT 0) I2C_OK
                :: write_events (frame_arg COMMAND_SET_MEASUREMENT_INTERVAL 5)
                     [nack; nack; nack; nack].
Proof. vm_compute. repeat split. Qed.

(** C3, where the specification fails: a NACK is not final. The transport NACKs the
    first attempt and accepts the second; both the send and the receive try
    again and succeed. *)
Lemma C3_nack_is_retried :
  let w := sendCommand_cmd CMD_STOP_MEAS (flaky [I2C_SDA_NACK] []) in
  let r := readbytes 3 (device [(I2C_SDA_NACK, []); ready]) in
  (fst w = true /\
   log (snd w) = [OpWrite [0x01; 0x04] I2C_SDA_NACK; OpWrite [0x01; 0x04] I2C_OK]) /\
  (fst r = (true, snd ready) /\
   log (snd r) = [OpRead 3 I2C_SDA_NACK []; OpRead 3 I2C_OK (snd ready)]).
Proof. vm_compute. repeat split. Qed.

(** C5, where the specification fails: the flag is true before
    [setForceRecalibration 500], the call succeeds, and the flag is still
    true. *)
Lemma C5_asc_still_true :
  let s := device [] in
  _asc s = true /\
  fst (setForceRecalibration 500 s) = true /\
  _asc (snd (setForceRecalibration 500 s)) = true.
Proof. vm_compute. repeat split. Qed.

(** C6, where the specification fails: on a device that accepts every
    write, setting
    the pressure after the altitude succeeds, and so does setting the
    altitude after the pressure. *)
Lemma C6_both_setters_succeed :
  let s := device [] in
  let s1 := snd (setAltitudeCompensation 1000 s) in
  let t1 := snd (setAmbientPressure 900 s) in
  fst (setAltitudeCompensation 1000 s) = true /\
  fst (setAmbientPressure 900 s1) = true /\
  fst (setAmbientPressure 900 s) = true /\
  fst (setAltitudeCompensation 1000 t1) = true.
Proof. vm_compute. repeat split. Qed.

(** C7, where the specification fails: the transport refuses every
    attempt, both
    setters report failure, and the shadow configuration has changed all the
    same, the interval from 2 to 5 and the flag from true to false. *)
Lemma C7_failed_setter_changes_shadow :
  let nack := I2C_SDA_NACK in
  let s := flaky [nack; nack; nack; nack] [] in
  shadow s = (true, 2) /\
  fst (setMeasurementInterval 5 s) = false /\
  shadow (snd (setMeasurementInterval 5 s)) = (true, 5) /\
  fst (setAutoSelfCalibration false s) = false /\
  shadow (snd (setAutoSelfCalibration false s)) = (false, 2).
Proof. vm_compute. repeat split. Qed.

(** C8, where the specification fails: the device is not ready, so no
    [readMeasurement] succeeds, and three consecutive [getCO2] put three
    data-ready transactions on the bus, one each. *)
Lemma C8_three_calls_three_transactions :
  let s0 := device [not_ready; not_ready; not_ready] in
  let s1 := snd (getCO2 s0) in
  let s2 := snd (getCO2 s1) in
  let s3 := snd (getCO2 s2) in
  let transaction := [OpWrite [0x02; 0x02] I2C_OK; OpRead 3 I2C_OK (snd not_ready)] in
  fst (readMeasurement s0) = false /\
  fst (readMeasurement s1) = false /\
  fst (readMeasurement s2) = false /\
  log s1 = transaction /\
  log s2 = transaction ++ transaction /\
  log s3 = transaction ++ transaction ++ transaction /\
  length (filter is_write (log s3)) = 3%nat.
Proof. vm_compute. repeat split. Qed.

(** C10 at 5000 mbar, on a device that accepts every write: the call
    succeeds. *)
Lemma C10_pressure_out_of_range_witness :
  (u16 5000 <? 700) || (1200 <? u16 5000) = true /\
  fst (setAmbientPressure 5000 (device [])) = true /\
  exists results,
    log (snd (setAmbientPressure 5000 (device [])))
    = log (device []) ++
      write_events (frame_arg COMMAND_CONTINUOUS_MEASUREMENT 0) results /\
    attempts is_ok 3 (fst (setAmbientPressure 5000 (device []))) results = true /\
    fst (setAmbientPressure 5000 (device [])) = is_ok (last results I2C_OTHER).
Proof.
  split; [reflexivity|]. split; [reflexivity|].
  apply (C10_pressure_out_of_range_sent_as_zero 5000 (device [])). reflexivity.
Defined.

(** * Further properties *)

Import Dead.

(** ** The checksum tells corrupted bytes *)

Lemma computeCRC8_spec d :
  bytes d = true -> (length d <= 255)%nat ->
  computeCRC8 d (Z.of_nat (length d)) = spec_compute d.
Proof.
  intros Hd Hlen. unfold computeCRC8, spec_compute.
  rewrite u8_small by lia. rewrite Nat2Z.id.
  apply (crc_bytes_spec d [] 255 Hd). lia.
Qed.

Lemma spec_rounds8_injective a b :
  0 <= a < 256 -> 0 <= b < 256 -> spec_rounds8 a = spec_rounds8 b -> a = b.
Proof.
  intros Ha Hb H.
  assert (Hall : forallb (fun a => forallb (fun b =>
            (a =? b) || negb (spec_rounds8 a =? spec_rounds8 b)) all_bytes)
            all_bytes = true) by (vm_compute; reflexivity).
  pose proof (byte_cases _ Hall a Ha) as H1. cbv beta in H1.
  pose proof (byte_cases _ H1 b Hb) as H2. cbv beta in H2.
  rewrite H, Z.eqb_refl in H2. cbn in H2. rewrite orb_false_r in H2.
  apply Z.eqb_eq, H2.
Qed.

Lemma spec_byte_range c b :
  0 <= c < 256 -> 0 <= b < 256 -> 0 <= spec_byte c b < 256.
Proof.
  intros Hc Hb. unfold spec_byte.
  rewrite <- crc_bits8_spec by (apply lxor_byte; assumption).
  apply crc_bits_range, lxor_byte; assumption.
Qed.

Lemma lxor_cancel_l c a b : Z.lxor c a = Z.lxor c b -> a = b.
Proof.
  intros H. apply (f_equal (Z.lxor c)) in H.
  rewrite <- !Z.lxor_assoc, Z.lxor_nilpotent, !Z.lxor_0_l in H. exact H.
Qed.

Lemma lxor_cancel_r c a b : Z.lxor a c = Z.lxor b c -> a = b.
Proof. rewrite !(Z.lxor_comm _ c). apply lxor_cancel_l. Qed.

Lemma spec_fold_range d : forall c,
  bytes d = true -> 0 <= c < 256 -> 0 <= fold_left spec_byte d c < 256.
Proof.
  induction d as [|b d IH]; intros c Hd Hc; [exact Hc|].
  apply bytes_cons in Hd as [Hb Hd]. cbn [fold_left].
  apply IH; [exact Hd | apply spec_byte_range; assumption].
Qed.

(** Two accumulators that differ stay different over the same bytes. *)
Lemma spec_fold_injective d : forall c c',
  bytes d = true -> 0 <= c < 256 -> 0 <= c' < 256 -> c <> c' ->
  fold_left spec_byte d c <> fold_left spec_byte d c'.
Proof.
  induction d as [|b d IH]; intros c c' Hd Hc Hc' Hne; [exact Hne|].
  apply bytes_cons in Hd as [Hb Hd]. cbn [fold_left].
  apply IH; try assumption; try (apply spec_byte_range; assumption).
  unfold spec_byte. intros H.
  apply spec_rounds8_injective in H; try (apply lxor_byte; assumption).
  apply lxor_cancel_r in H. contradiction.
Qed.

Lemma bytes_app d1 d2 : bytes (d1 ++ d2) = bytes d1 && bytes d2.
Proof. unfold bytes. apply forallb_app. Qed.

Lemma is_byte_range b : is_byte b = true -> 0 <= b < 256.
Proof. unfold is_byte. intros H. apply andb_prop in H as [H0 H1]. lia. Qed.

(** X1. The checksum of a byte sequence is not the checksum of any
    sequence that differs from it in exactly one byte: [checkCrc] turns
    down a received sequence in which one byte was corrupted. *)
Theorem checkCrc_rejects_one_corrupted_byte (pre post : list Z) (b b' : Z) :
  bytes (pre ++ b :: post) = true -> is_byte b' = true -> b' <> b ->
  (length (pre ++ b :: post) <= 255)%nat ->
  let len := Z.of_nat (length (pre ++ b :: post)) in
  checkCrc (pre ++ b' :: post) len (computeCRC8 (pre ++ b :: post) len) = false.
Proof.
  intros Hd Hb' Hne Hlen len. set (crc := computeCRC8 (pre ++ b :: post) len).
  assert (Hd' : bytes (pre ++ b' :: post) = true).
  { rewrite bytes_app in *. apply andb_prop in Hd as [Hpre Hpost].
    rewrite Hpre. unfold bytes in *. cbn [forallb] in *.
    apply andb_prop in Hpost as [_ Hpost]. rewrite Hb', Hpost. reflexivity. }
  assert (Hlen' : length (pre ++ b' :: post) = length (pre ++ b :: post))
    by (rewrite !length_app; reflexivity).
  assert (Hbr : 0 <= b < 256).
  { rewrite bytes_app in Hd. apply andb_prop in Hd as [_ Hd].
    apply bytes_cons in Hd as [Hb _]. exact Hb. }
  pose proof (is_byte_range _ Hb') as Hbr'.
  assert (Hcrc : 0 <= crc < 256) by apply computeCRC8_range.
  destruct (checkCrc (pre ++ b' :: post) len crc) eqn:E; [|reflexivity].
  exfalso. apply checkCrc_true in E. rewrite u8_small in E by exact Hcrc.
  unfold crc, len in E. rewrite <- Hlen' in E at 2.
  rewrite !computeCRC8_spec in E by (try assumption; lia).
  unfold spec_compute in E. rewrite !fold_left_app in E. cbn [fold_left] in E.
  rewrite bytes_app in Hd. apply andb_prop in Hd as [Hpre Hpost].
  apply bytes_cons in Hpost as [_ Hpost].
  assert (Hacc : 0 <= fold_left spec_byte pre 255 < 256)
    by (apply spec_fold_range; [exact Hpre | lia]).
  revert E. apply not_eq_sym.
  apply spec_fold_injective; try assumption; try (apply spec_byte_range; assumption).
  unfold spec_byte. intros H.
  apply spec_rounds8_injective in H; try (apply lxor_byte; assumption).
  apply lxor_cancel_l in H. congruence.
Qed.

(** X1 at the group [0xBE 0xEF] of the interface description, with its
    second byte read as [0xEE]. *)
Lemma checkCrc_rejects_one_corrupted_byte_witness :
  bytes ([0xBE] ++ 0xEF :: []) = true /\ is_byte 0xEE = true /\ 0xEE <> 0xEF /\
  (length ([0xBE] ++ 0xEF :: []) <= 255)%nat /\
  checkCrc [0xBE; 0xEE] 2 (computeCRC8 [0xBE; 0xEF] 2) = false.
Proof.
  assert (H1 : bytes ([0xBE] ++ 0xEF :: []) = true) by reflexivity.
  assert (H2 : is_byte 0xEE = true) by reflexivity.
  assert (H3 : 0xEE <> 0xEF) by discriminate.
  assert (H4 : (length ([0xBE] ++ 0xEF :: []) <= 255)%nat) by (simpl; lia).
  split; [exact H1|]. split; [exact H2|]. split; [exact H3|]. split; [exact H4|].
  exact (checkCrc_rejects_one_corrupted_byte [0xBE] [] 0xEF 0xEE H1 H2 H3 H4).
Defined.

(** ** Frames and the data-ready query *)

Section Framing.

Context {Bus : Type} `{TW : TwoWire Bus} `{FL : Float32}.

Lemma u16_split z :
  0 <= u16 z / 256 < 256 /\ 0 <= u16 z mod 256 < 256 /\
  u16 z / 256 * 256 + u16 z mod 256 = u16 z.
Proof.
  assert (H : 0 <= u16 z < 65536) by (apply Z.mod_pos_bound; lia).
  split; [split; [apply Z.div_pos; lia | apply Z.div_lt_upper_bound; lia]|].
  split; [apply Z.mod_pos_bound; lia|].
  pose proof (Z.div_mod (u16 z) 256 ltac:(lia)). lia.
Qed.

(** X2. What [sendCommand] writes can be read back: with an argument it is
    five bytes, the opcode then the argument, both most significant byte
    first, then a checksum that [checkCrc] accepts for the two argument
    bytes alone; without an argument it is the two opcode bytes. Every
    attempt of the transaction writes that same frame. *)
Theorem sendCommand_frame_reads_back (command arguments : Z) (s : Driver Bus) :
  (exists c1 c0 a1 a0 crc results,
     log (snd (sendCommand_arg command arguments s))
     = log s ++ write_events [c1; c0; a1; a0; crc] results /\
     attempts is_ok 3 (fst (sendCommand_arg command arguments s)) results = true /\
     CRC.bytes [c1; c0; a1; a0; crc] = true /\
     c1 * 256 + c0 = u16 command /\
     a1 * 256 + a0 = u16 arguments /\
     CRC.checkCrc [a1; a0] 2 crc = true) /\
  (exists c1 c0 results,
     log (snd (sendCommand_cmd command s)) = log s ++ write_events [c1; c0] results /\
     attempts is_ok 3 (fst (sendCommand_cmd command s)) results = true /\
     CRC.bytes [c1; c0] = true /\
     c1 * 256 + c0 = u16 command).
Proof.
  destruct (u16_split command) as (Hc1 & Hc0 & Hc).
  destruct (u16_split arguments) as (Ha1 & Ha0 & Ha).
  assert (Hb : forall b, 0 <= b < 256 -> CRC.is_byte b = true).
  { intros b Hr. unfold CRC.is_byte. apply andb_true_intro. split; lia. }
  split.
  - destruct (sendCommand_arg_spec command arguments s) as (results & Hlog & Hatt).
    exists (u16 command / 256), (u16 command mod 256),
      (u16 arguments / 256), (u16 arguments mod 256),
      (CRC.computeCRC8 [u16 arguments / 256; u16 arguments mod 256] 2), results.
    split; [exact Hlog|]. split; [exact Hatt|].
    split; [|split; [exact Hc|split; [exact Ha|]]].
    + unfold CRC.bytes. cbn [forallb].
      rewrite !Hb by (first [assumption | apply computeCRC8_range]). reflexivity.
    + apply checkCrc_true, u8_small, computeCRC8_range.
  - destruct (sendCommand_cmd_spec command s) as (results & Hlog & Hatt).
    exists (u16 command / 256), (u16 command mod 256), results.
    split; [exact Hlog|]. split; [exact Hatt|]. split; [|exact Hc].
    unfold CRC.bytes. cbn [forallb]. rewrite !Hb by assumption. reflexivity.
Qed.

(** X3. [dataAvailable] answers [true] only when the last thing on the bus
    is a 3-byte read that succeeded, whose checksum matches and whose second
    byte is 1. Whatever it answers, it leaves the cached sample, its flags
    and the shadow configuration alone. *)
Theorem dataAvailable_true_means_ready (s : Driver Bus) :
  let r := fst (dataAvailable s) in
  let s' := snd (dataAvailable s) in
  cache s' = cache s /\ shadow s' = shadow s /\
  if r then
    exists evs data,
      log s' = log s ++ evs ++ [OpRead 3 I2C_OK data] /\
      CRC.checkCrc data 2 (byte_at data 2) = true /\
      byte_at data 1 = 1
  else True.
Proof.
  cbv zeta.
  split; [apply dataAvailable_preserves; exact _|].
  split; [apply dataAvailable_preserves; exact _|].
  unfold dataAvailable. rewrite bind_run.
  destruct (sendCommand_extends COMMAND_GET_DATA_READY 0 2 s) as [e1 He1].
  fold (sendCommand_cmd COMMAND_GET_DATA_READY) in *.
  destruct (sendCommand_cmd COMMAND_GET_DATA_READY s) as [sent s1].
  cbn [fst snd] in *. destruct sent; cbn [negb]; [|exact I].
  rewrite bind_run. pose proof (readbytes_ok 3 s1) as Hr.
  destruct (readbytes 3 s1) as [[ok data] s2]. cbn [fst snd] in *.
  destruct ok; cbn [negb]; [|exact I].
  destruct (Hr eq_refl) as [e2 He2].
  destruct (CRC.checkCrc data 2 (byte_at data 2)) eqn:Hcrc; cbn [negb]; [|exact I].
  destruct (Z.eqb_spec (byte_at data 1) 1) as [H1|]; [|exact I].
  exists (e1 ++ e2), data. cbn [ret fst snd].
  split; [|split; [exact Hcrc | exact H1]].
  rewrite He2, He1. change (u8 3) with 3. rewrite <- !app_assoc. reflexivity.
Qed.

End Framing.

(** ** The serial number *)

Section Serial.

Context {Bus : Type} `{TW : TwoWire Bus} `{FL : Float32}.

Lemma upd_pair_0 (a b v : Z) : upd [a; b] 0 v = [v; b].
Proof. reflexivity. Qed.

Lemma upd_pair_1 (a b v : Z) : upd [a; b] 1 v = [a; v].
Proof. reflexivity. Qed.

Lemma serial_loop_digit n buff x st :
  serial_digit x = true ->
  serial_loop (S n) buff x st =
  serial_loop n buff (x + 1)
    (mkSerial (upd (s_val st) (s_pos st) (byte_at buff x)) (s_pos st + 1)
       (s_y st + 1) (upd (s_data st) (s_y st) (byte_at buff x))).
Proof. intros H. cbn [serial_loop]. unfold serial_step. rewrite H. reflexivity. Qed.

Lemma serial_loop_check n buff x st :
  serial_digit x = false ->
  serial_loop (S n) buff x st =
  if negb (CRC.checkCrc (s_data st) 2 (byte_at buff x)) then inr (s_val st)
  else serial_loop n buff (x + 1) (mkSerial (s_val st) (s_pos st) 0 (s_data st)).
Proof.
  intros H. cbn [serial_loop]. unfold serial_step. rewrite H.
  destruct (negb _); reflexivity.
Qed.

Ltac serial_digits_step :=
  rewrite serial_loop_digit by reflexivity;
  cbn [s_val s_pos s_y s_data Z.add Pos.add Pos.succ Pos.add_carry];
  repeat (rewrite upd_pair_0 || rewrite upd_pair_1).

Ltac serial_check_step :=
  rewrite serial_loop_check by reflexivity;
  cbn [s_val s_pos s_y s_data Z.add Pos.add Pos.succ Pos.add_carry].

Lemma serial_loop_groups buff val :
  serial_loop 9 buff 0 (mkSerial val 0 0 [0; 0]) =
  let v2 := upd (upd val 0 (byte_at buff 0)) 1 (byte_at buff 1) in
  let v4 := upd (upd v2 2 (byte_at buff 3)) 3 (byte_at buff 4) in
  let v6 := upd (upd v4 4 (byte_at buff 6)) 5 (byte_at buff 7) in
  if negb (group_ok buff 0) then inr v2
  else if negb (group_ok buff 3) then inr v4
  else if negb (group_ok buff 6) then inr v6
  else inl (mkSerial v6 6 0 [byte_at buff 6; byte_at buff 7]).
Proof.
  unfold group_ok. cbv zeta.
  cbn [Z.add Pos.add Pos.succ Pos.add_carry].
  do 2 serial_digits_step. serial_check_step.
  destruct (CRC.checkCrc _ 2 (byte_at buff 2)); cbn [negb]; [|reflexivity].
  do 2 serial_digits_step. serial_check_step.
  destruct (CRC.checkCrc _ 2 (byte_at buff 5)); cbn [negb]; [|reflexivity].
  do 2 serial_digits_step. serial_check_step.
  destruct (CRC.checkCrc _ 2 (byte_at buff 8)); cbn [negb]; reflexivity.
Qed.

Lemma upd_overwrite (val : list Z) (b0 b1 b2 b3 b4 b5 z : Z) :
  (7 <= length val)%nat ->
  let v2 := upd (upd val 0 b0) 1 b1 in
  let v4 := upd (upd v2 2 b2) 3 b3 in
  let v6 := upd (upd v4 4 b4) 5 b5 in
  v2 = overwrite val [b0; b1] /\
  v4 = overwrite val [b0; b1; b2; b3] /\
  v6 = overwrite val [b0; b1; b2; b3; b4; b5] /\
  upd v6 6 z = overwrite val [b0; b1; b2; b3; b4; b5; z].
Proof.
  intros Hlen.
  do 7 (destruct val as [|? val]; [cbn in Hlen; lia|]).
  repeat split.
Qed.


(** The buffer a serial-number response leaves, and the result, once the
    nine bytes are read. *)
Lemma getSerialNumber_run val (s : Driver Bus) :
  (7 <= length val)%nat ->
  let sent := fst (sendCommand_cmd CMD_READ_SERIALNBR s) in
  let s1 := snd (sendCommand_cmd CMD_READ_SERIALNBR s) in
  let ok := fst (fst (readbytes 9 s1)) in
  let buff := snd (fst (readbytes 9 s1)) in
  let s2 := snd (readbytes 9 s1) in
  getSerialNumber val s =
  if negb sent then (false, val, s1)
  else if negb ok then (false, val, s2)
  else if Nat.eqb (serial_groups buff) 3
       then (true, overwrite val (serial_digits buff ++ [0]), s2)
       else (false,
             overwrite val (firstn (2 * S (serial_groups buff)) (serial_digits buff)),
             s2).
Proof.
  intros Hlen. cbv zeta. unfold getSerialNumber. rewrite bind_run.
  destruct (sendCommand_cmd CMD_READ_SERIALNBR s) as [sent s1]. cbn [fst snd].
  destruct sent; cbn [negb]; [|reflexivity].
  rewrite bind_run. destruct (readbytes 9 s1) as [[ok buff] s2]. cbn [fst snd].
  destruct ok; cbn [negb]; [|reflexivity].
  rewrite serial_loop_groups. cbv zeta. unfold serial_groups, serial_digits.
  destruct (upd_overwrite val (byte_at buff 0) (byte_at buff 1) (byte_at buff 3)
              (byte_at buff 4) (byte_at buff 6) (byte_at buff 7) 0 Hlen)
    as (H2 & H4 & H6 & H7).
  cbv zeta in H2, H4, H6, H7.
  destruct (group_ok buff 0); cbn [negb]; [|rewrite H2; reflexivity].
  destruct (group_ok buff 3); cbn [negb]; [|rewrite H4; reflexivity].
  destruct (group_ok buff 6); cbn [negb]; [|rewrite H6; reflexivity].
  cbn [s_val s_pos]. rewrite H7. reflexivity.
Qed.

(** X4. When [getSerialNumber] returns [true], the last thing on the bus is
    a 9-byte read that succeeded, its three checksums match, and the caller's
    buffer starts with the six digits of the response followed by a 0; the
    cells after these seven are as before. *)
Theorem getSerialNumber_true_gives_digits val (s : Driver Bus) :
  (7 <= length val)%nat ->
  fst (fst (getSerialNumber val s)) = true ->
  exists evs buff,
    log (snd (getSerialNumber val s)) = log s ++ evs ++ [OpRead 9 I2C_OK buff] /\
    serial_groups buff = 3%nat /\
    snd (fst (getSerialNumber val s)) = overwrite val (serial_digits buff ++ [0]).
Proof.
  intros Hlen. rewrite (getSerialNumber_run val s Hlen). cbv zeta.
  destruct (sendCommand_extends CMD_READ_SERIALNBR 0 2 s) as [e1 He1].
  fold (sendCommand_cmd CMD_READ_SERIALNBR) in *.
  destruct (sendCommand_cmd CMD_READ_SERIALNBR s) as [sent s1]. cbn [fst snd] in *.
  destruct sent; cbn [negb fst snd]; [|discriminate].
  pose proof (readbytes_ok 9 s1) as Hr.
  destruct (readbytes 9 s1) as [[ok buff] s2]. cbn [fst snd] in *.
  destruct ok; cbn [negb fst snd]; [|discriminate].
  destruct (Hr eq_refl) as [e2 He2].
  destruct (Nat.eqb_spec (serial_groups buff) 3) as [Hg|]; cbn [fst snd];
    [|discriminate].
  intros _. exists (e1 ++ e2), buff. split; [|split; [exact Hg | reflexivity]].
  rewrite He2, He1. change (u8 9) with 9. rewrite <- !app_assoc. reflexivity.
Qed.


End Serial.

(** X4 on a device that answers with the digits 1 to 6. *)
Lemma getSerialNumber_true_gives_digits_witness :
  let val := [9; 9; 9; 9; 9; 9; 9; 9] in
  let s := device [(I2C_OK, [0x31; 0x32; 0x60; 0x33; 0x34; 0x1F; 0x35; 0x36; 0x27])] in
  (7 <= length val)%nat /\
  fst (fst (getSerialNumber val s)) = true /\
  snd (fst (getSerialNumber val s)) = [0x31; 0x32; 0x33; 0x34; 0x35; 0x36; 0; 9] /\
  exists evs buff,
    log (snd (getSerialNumber val s)) = log s ++ evs ++ [OpRead 9 I2C_OK buff] /\
    serial_groups buff = 3%nat /\
    snd (fst (getSerialNumber val s)) = overwrite val (serial_digits buff ++ [0]).
Proof.
  cbv zeta.
  assert (Hlen : (7 <= length [9; 9; 9; 9; 9; 9; 9; 9]%Z)%nat) by (simpl; lia).
  split; [exact Hlen|]. split; [reflexivity|]. split; [reflexivity|].
  apply (getSerialNumber_true_gives_digits _ _ Hlen). reflexivity.
Defined.


(** ** Start-up, reset and the altitude *)

Section Startup.

Context {Bus : Type} `{TW : TwoWire Bus} `{FL : Float32}.

Lemma u16_range z : 0 <= u16 z < 65536.
Proof. unfold u16. apply Z.mod_pos_bound. lia. Qed.

Lemma u16_small z : 0 <= z < 65536 -> u16 z = z.
Proof. intros. unfold u16. apply Z.mod_small. assumption. Qed.

(** [begin_scd30] sends the interval the shadow already holds: an interval
    in the range of its type stays as it is. *)
Lemma begin_scd30_shadow (s : Driver Bus) :
  0 <= _interval s < 65536 -> shadow (snd (begin_scd30 s)) = shadow s.
Proof.
  intros Hi. unfold begin_scd30. rewrite bind_run. cbn [get fst snd].
  assert (Hk : forall s1 : Driver Bus, shadow s1 = shadow s ->
    shadow (snd ((asc <- get _asc ;; setAutoSelfCalibration asc) s1)) = shadow s).
  { intros s1 H1. rewrite bind_run. cbn [get fst snd].
    rewrite setAutoSelfCalibration_shadow. exact H1. }
  destruct (0 <? _interval s).
  - rewrite bind_run.
    pose proof (beginMeasuring_preserves 0 s) as Hb.
    fold (@beginMeasuring_void Bus TW) in Hb.
    destruct (beginMeasuring_void s) as [started s1]. cbn [fst snd] in *.
    rewrite bind_run. destruct started.
    + rewrite bind_run. cbn [get fst snd].
      pose proof (setMeasurementInterval_shadow (_interval s1) s1) as Hs.
      assert (Hi1 : _interval s1 = _interval s)
        by (apply (f_equal snd) in Hb; exact Hb).
      rewrite (u16_small (_interval s1)) in Hs by lia.
      destruct ((_interval s1 <? 2) || (1800 <? _interval s1)).
      * rewrite Hs. cbn. exact Hb.
      * destruct (setMeasurementInterval (_interval s1) s1) as [ok s2].
        cbn [fst snd] in *. destruct ok; cbn [negb].
        -- apply Hk. rewrite Hs. exact Hb.
        -- cbn. rewrite Hs. exact Hb.
    + cbn [ret fst snd negb]. apply Hk. exact Hb.
  - apply (sendCommand_preserves shadow CMD_STOP_MEAS 0 2 s).
Qed.

(** [begin] once the transport calls that set it up are made. *)
Lemma begin_run (asc : bool) (interval : Z) (s : Driver Bus) :
  let s0 := set_asc asc (set_interval (u16 interval) s) in
  let sp := snd ((if pullup (settings s) then on_bus twi_setPullup else ret tt) s0) in
  let up := bus_call (twi_begin (I2C_interface (settings s)) (sda (settings s))
                        (scl (settings s))) (fun _ => []) sp in
  begin asc interval s =
  if fst up
  then begin_scd30 (snd (on_bus (twi_setClockStretchLimit 200000)
                      (snd (on_bus (twi_setClock (baudrate (settings s))) (snd up)))))
  else (false, snd up).
Proof.
  cbv zeta. unfold begin. rewrite !bind_run. cbn [modify get fst snd].
  change (settings (set_asc asc (set_interval (u16 interval) s))) with (settings s).
  destruct (fst (bus_call _ _ _)); reflexivity.
Qed.

Lemma begin_shadow_args (asc : bool) (interval : Z) (s : Driver Bus) :
  shadow (snd (begin asc interval s)) = (asc, u16 interval).
Proof.
  rewrite begin_run. cbv zeta.
  match goal with
  | |- context [bus_call ?f ?e ?x] =>
      assert (Hu : shadow (snd (bus_call f e x)) = (asc, u16 interval))
        by (rewrite (preserves_bus_call shadow f e x);
            destruct (pullup (settings s)); reflexivity);
      destruct (bus_call f e x) as [up s1]
  end.
  cbn [fst snd] in *. destruct up; [|exact Hu].
  rewrite begin_scd30_shadow; [exact Hu|].
  cbn [on_bus modify snd _interval].
  apply (f_equal snd) in Hu. cbn [shadow snd] in Hu. rewrite Hu. apply u16_range.
Qed.

(** X7. When the two-wire hardware cannot be initialised, [begin] returns
    [false] and nothing is written on or read from the bus. *)
Theorem begin_without_hardware_sends_nothing (asc : bool) (interval : Z)
    (s : Driver Bus) :
  let st := settings s in
  let b := if pullup st then twi_setPullup (TWI s) else TWI s in
  fst (twi_begin (I2C_interface st) (sda st) (scl st) b) = false ->
  fst (begin asc interval s) = false /\ log (snd (begin asc interval s)) = log s.
Proof.
  cbv zeta. intros Hup. rewrite begin_run. cbv zeta.
  set (s0 := set_asc asc (set_interval (u16 interval) s)).
  assert (Hb : TWI (snd ((if pullup (settings s) then on_bus twi_setPullup else ret tt) s0))
               = if pullup (settings s) then twi_setPullup (TWI s) else TWI s)
    by (destruct (pullup (settings s)); reflexivity).
  assert (Hl : log (snd ((if pullup (settings s) then on_bus twi_setPullup else ret tt) s0))
               = log s)
    by (destruct (pullup (settings s)); reflexivity).
  set (sp := snd ((if pullup (settings s) then on_bus twi_setPullup else ret tt) s0)) in *.
  unfold bus_call. rewrite Hb.
  destruct (twi_begin (I2C_interface (settings s)) (sda (settings s))
              (scl (settings s))
              (if pullup (settings s) then twi_setPullup (TWI s) else TWI s))
    as [up b1].
  cbn [fst snd] in *. subst up. cbn [fst snd log].
  split; [reflexivity|]. rewrite Hl. apply app_nil_r.
Qed.

(** X8. [SoftReset] leaves the shadow configuration as it was, and when
    the reset command is not accepted it returns [false] with nothing sent
    after the attempts at that command: the settings are not sent again. *)
Theorem SoftReset_keeps_shadow (s : Driver Bus) :
  0 <= _interval s < 65536 ->
  shadow (snd (SoftReset s)) = shadow s /\
  exists results rest,
    log (snd (SoftReset s))
    = log s ++ write_events (frame_cmd CMD_SOFT_RESET) results ++ rest /\
    if is_ok (last results I2C_OTHER) then True
    else fst (SoftReset s) = false /\ rest = [] /\ length results = 4%nat.
Proof.
  intros Hi. unfold SoftReset. rewrite bind_run.
  destruct (sendCommand_cmd_spec CMD_SOFT_RESET s) as (results & Hlog & Hatt).
  pose proof (sendCommand_preserves shadow CMD_SOFT_RESET 0 2 s) as Hs.
  fold (sendCommand_cmd CMD_SOFT_RESET) in Hs.
  pose proof (attempts_last _ I2C_OTHER _ _ _ Hatt) as Hlast.
  destruct (sendCommand_cmd CMD_SOFT_RESET s) as [sent s1]. cbn [fst snd] in *.
  destruct sent; cbn [negb].
  - split.
    + rewrite begin_scd30_shadow; [exact Hs|].
      apply (f_equal snd) in Hs. cbn [shadow snd] in Hs. rewrite Hs. exact Hi.
    + destruct (begin_scd30_extends s1) as [evs Hevs].
      exists results, evs. rewrite <- Hlast.
      split; [|exact I]. rewrite Hevs, Hlog, <- app_assoc. reflexivity.
  - split; [exact Hs|]. exists results, []. rewrite <- Hlast.
    split; [cbn; rewrite Hlog, app_nil_r; reflexivity|].
    split; [reflexivity|]. split; [reflexivity|].
    apply (attempts_failed _ _ _ Hatt).
Qed.

(** X9. With an interval of 1, or above 1800, [begin_scd30] gives up once
    the sensor has accepted the start of continuous measurement: it returns
    [false] and sends nothing more, neither the interval nor the calibration
    command, and the sensor is left measuring. *)
Theorem begin_scd30_bad_interval (s : Driver Bus) :
  _interval s = 1 \/ 1800 < _interval s < 65536 ->
  fst (beginMeasuring_void s) = true ->
  begin_scd30 s = (false, snd (beginMeasuring_void s)).
Proof.
  intros Hi Hstart. unfold begin_scd30. rewrite bind_run. cbn [get fst snd].
  destruct (Z.ltb_spec 0 (_interval s)); [|lia].
  rewrite bind_run, Hstart. rewrite !bind_run. cbn [get fst snd].
  pose proof (beginMeasuring_preserves 0 s) as Hb.
  fold (@beginMeasuring_void Bus TW) in Hb.
  apply (f_equal snd) in Hb. cbn [shadow snd] in Hb. rewrite Hb.
  pose proof (setMeasurementInterval_shadow (_interval s) (snd (beginMeasuring_void s)))
    as Hs.
  rewrite (u16_small (_interval s)) in Hs by lia.
  destruct (Z.ltb_spec (_interval s) 2), (Z.ltb_spec 1800 (_interval s));
    cbn [orb] in Hs; try lia; rewrite Hs; reflexivity.
Qed.

(** X10. [setAltitudeCompensation] takes its argument as [uint16_t] and
    compares it as such: an altitude below zero, as the program passes it
    from an [int16_t], is turned down without a word on the bus, although
    the range reaches down to -1520; from 0 to 3040 the command is sent. *)
Theorem setAltitudeCompensation_below_zero (alt : Z) (s : Driver Bus) :
  -32768 <= alt <= 3040 ->
  if alt <? 0 then setAltitudeCompensation alt s = (false, s)
  else exists results,
    log (snd (setAltitudeCompensation alt s))
    = log s ++ write_events (frame_arg COMMAND_SET_ALTITUDE_COMPENSATION alt) results /\
    attempts is_ok 3 (fst (setAltitudeCompensation alt s)) results = true.
Proof.
  intros Hr. unfold setAltitudeCompensation. cbv zeta.
  destruct (Z.ltb_spec alt 0).
  - assert (Hu : u16 alt = alt + 65536).
    { unfold u16. symmetry. apply (Z.mod_unique _ _ (-1)); lia. }
    rewrite Hu.
    destruct (Z.ltb_spec (alt + 65536) (-1520)), (Z.ltb_spec 3040 (alt + 65536));
      try lia; reflexivity.
  - rewrite u16_small by lia.
    destruct (Z.ltb_spec alt (-1520)), (Z.ltb_spec 3040 alt); try lia. cbn [orb].
    apply sendCommand_arg_spec.
Qed.

End Startup.

(** X7 on a transport that cannot be set up. *)
Lemma begin_without_hardware_sends_nothing_witness :
  let s := initial (Dead.mkBus 0) in
  fst (twi_begin (I2C_interface (settings s)) (sda (settings s)) (scl (settings s))
         (if pullup (settings s) then twi_setPullup (TWI s) else TWI s)) = false /\
  fst (begin true 2 s) = false /\ log (snd (begin true 2 s)) = log s /\
  shadow (snd (begin true 2 s)) = (true, 2).
Proof.
  cbv zeta.
  assert (H : fst (twi_begin (I2C_interface (settings (initial (Dead.mkBus 0))))
                     (sda (settings (initial (Dead.mkBus 0))))
                     (scl (settings (initial (Dead.mkBus 0))))
                     (if pullup (settings (initial (Dead.mkBus 0)))
                      then twi_setPullup (TWI (initial (Dead.mkBus 0)))
                      else TWI (initial (Dead.mkBus 0)))) = false) by reflexivity.
  split; [exact H|].
  destruct (begin_without_hardware_sends_nothing true 2 (initial (Dead.mkBus 0)) H)
    as [Hr Hl].
  split; [exact Hr|]. split; [exact Hl|]. reflexivity.
Defined.

(** X8 on a device that refuses the reset four times. *)
Lemma SoftReset_keeps_shadow_witness :
  let nack := I2C_SDA_NACK in
  let s := flaky [nack; nack; nack; nack] [] in
  0 <= _interval s < 65536 /\
  fst (SoftReset s) = false /\
  shadow (snd (SoftReset s)) = shadow s /\
  exists results rest,
    log (snd (SoftReset s))
    = log s ++ write_events (frame_cmd CMD_SOFT_RESET) results ++ rest /\
    if is_ok (last results I2C_OTHER) then True
    else fst (SoftReset s) = false /\ rest = [] /\ length results = 4%nat.
Proof.
  cbv zeta.
  assert (H : 0 <= _interval (flaky [I2C_SDA_NACK; I2C_SDA_NACK; I2C_SDA_NACK;
                                      I2C_SDA_NACK] []) < 65536) by (cbn; lia).
  split; [exact H|]. split; [reflexivity|].
  exact (SoftReset_keeps_shadow _ H).
Defined.

(** X9 with the interval 1 on a device that accepts every write. *)
Lemma begin_scd30_bad_interval_witness :
  let s := set_interval 1 (device []) in
  (_interval s = 1 \/ 1800 < _interval s < 65536) /\
  fst (beginMeasuring_void s) = true /\
  begin_scd30 s = (false, snd (beginMeasuring_void s)) /\
  log (snd (begin_scd30 s)) = [OpWrite (frame_arg COMMAND_CONTINUOUS_MEASUREMENT 0) I2C_OK].
Proof.
  cbv zeta.
  assert (H1 : _interval (set_interval 1 (device [])) = 1
               \/ 1800 < _interval (set_interval 1 (device [])) < 65536)
    by (left; reflexivity).
  assert (H2 : fst (beginMeasuring_void (set_interval 1 (device []))) = true)
    by reflexivity.
  split; [exact H1|]. split; [exact H2|].
  split; [exact (begin_scd30_bad_interval _ H1 H2) | reflexivity].
Defined.

(** X10 at 100 m below and 100 m above sea level. *)
Lemma setAltitudeCompensation_below_zero_witness :
  -32768 <= -100 <= 3040 /\ -32768 <= 100 <= 3040 /\
  setAltitudeCompensation (-100) (device []) = (false, device []) /\
  fst (setAltitudeCompensation 100 (device [])) = true.
Proof.
  assert (H1 : -32768 <= -100 <= 3040) by lia.
  assert (H2 : -32768 <= 100 <= 3040) by lia.
  split; [exact H1|]. split; [exact H2|].
  split.
  - exact (setAltitudeCompensation_below_zero (-100) (device []) H1).
  - pose proof (setAltitudeCompensation_below_zero 100 (device []) H2) as H.
    reflexivity.
Defined.

(** ** The single measurement and the accessors *)

Section Sampling.

Context {Bus : Type} `{TW : TwoWire Bus} `{FL : Float32}.

(** What [readMeasurement] does to the cache: a response that checks
    replaces it, anything else leaves it. *)
Lemma readMeasurement_cache (s : Driver Bus) :
  if fst (readMeasurement s)
  then exists buff, checks_ok buff = true /\
                    cache (snd (readMeasurement s)) = decoded buff
  else cache (snd (readMeasurement s)) = cache s.
Proof.
  unfold readMeasurement. rewrite bind_run.
  pose proof (dataAvailable_preserves cache s) as Hc1.
  destruct (dataAvailable s) as [avail s1]. cbn [fst snd] in *.
  destruct avail; cbn [negb]; [|exact Hc1].
  rewrite bind_run.
  pose proof (sendCommand_preserves cache COMMAND_READ_MEASUREMENT 0 2 s1) as Hc2.
  fold (sendCommand_cmd COMMAND_READ_MEASUREMENT) in *.
  destruct (sendCommand_cmd COMMAND_READ_MEASUREMENT s1) as [sent s2].
  cbn [fst snd] in *.
  destruct sent; cbn [negb]; [|cbn; congruence].
  rewrite bind_run.
  pose proof (readbytes_preserves cache 18 s2) as Hc3.
  destruct (readbytes 18 s2) as [[ok buff] s3]. cbn [fst snd] in *.
  destruct ok; cbn [negb]; [|cbn; congruence].
  pose proof (parse_measurement_spec buff) as Hp.
  destruct (parse_measurement buff) as [p|]; [|cbn; congruence].
  destruct Hp as [Hck Hdec]. exists buff. split; [exact Hck|].
  rewrite <- Hdec. reflexivity.
Qed.

Lemma begin_scd30_preserves_cache : preserves (Bus := Bus) cache begin_scd30.
Proof.
  unfold begin_scd30, beginMeasuring_void, beginMeasuring, setMeasurementInterval,
    setAutoSelfCalibration, StopMeasurement, sendCommand_arg, sendCommand_cmd.
  frame.
Qed.



(** The seconds slept. *)

Lemma slept_app a b : slept (a ++ b) = slept a + slept b.
Proof.
  induction a as [|e a IH]; [reflexivity|].
  cbn [app slept fold_right]. fold (slept (a ++ b)). fold (slept a).
  rewrite IH. destruct e; lia.
Qed.

Lemma no_sleep_slept evs : forallb no_sleep evs = true -> slept evs = 0.
Proof.
  induction evs as [|e evs IH]; [reflexivity|].
  cbn [forallb]. intros H. apply andb_prop in H as [He H].
  cbn [slept fold_right]. fold (slept evs). rewrite (IH H).
  destruct e; [reflexivity | reflexivity | discriminate].
Qed.

Lemma emits_ret {A} P (a : A) : emits (Bus := Bus) P (ret a).
Proof. intros s. exists []. cbn. rewrite app_nil_r. auto. Qed.

Lemma emits_get {A} P (g : Driver Bus -> A) : emits P (get g).
Proof. intros s. exists []. cbn. rewrite app_nil_r. auto. Qed.

Lemma emits_bind {A A'} P (m : M Bus A) (k : A -> M Bus A') :
  emits P m -> (forall a, emits P (k a)) -> emits P (bind m k).
Proof.
  intros Hm Hk s. rewrite bind_run. destruct (Hm s) as (e1 & H1 & P1).
  destruct (Hk (fst (m s)) (snd (m s))) as (e2 & H2 & P2).
  exists (e1 ++ e2). rewrite H2, H1, app_assoc, forallb_app, P1, P2. auto.
Qed.

Lemma emits_if {A} P (c : bool) (m1 m2 : M Bus A) :
  emits P m1 -> emits P m2 -> emits P (if c then m1 else m2).
Proof. destruct c; auto. Qed.

Lemma emits_modify P (g : Driver Bus -> Driver Bus) `{!Quiet g} :
  emits P (modify g).
Proof.
  intros s. exists []. cbn. rewrite app_nil_r. split; [apply quiet | reflexivity].
Qed.

Lemma emits_on_bus P (g : Bus -> Bus) : emits P (on_bus g).
Proof. intros s. exists []. cbn. rewrite app_nil_r. auto. Qed.

Lemma emits_bus_call {A} P (g : Bus -> A * Bus) (ev : A -> list Event) :
  (forall a, forallb P (ev a) = true) -> emits P (bus_call g ev).
Proof.
  intros Hev s. unfold bus_call. destruct (g (TWI s)) as [a b].
  exists (ev a). split; [reflexivity | apply Hev].
Qed.

End Sampling.

#[export] Hint Resolve emits_ret emits_get emits_bind emits_if emits_modify
  emits_on_bus : driver.

Ltac emit :=
  repeat first
    [ progress intros
    | solve [auto with driver typeclass_instances]
    | apply emits_bind
    | apply emits_if
    | apply emits_bus_call; intros; reflexivity
    | match goal with |- context [match ?x with _ => _ end] => destruct x end ].

Section Waiting.

Context {Bus : Type} `{TW : TwoWire Bus} `{FL : Float32}.

Lemma sendCommand_no_sleep c a len : emits (Bus := Bus) no_sleep (sendCommand c a len).
Proof.
  unfold sendCommand. apply emits_bind; [unfold TWI_setSlave; emit|intros _].
  generalize 3%nat as retry.
  induction retry as [|retry IH]; cbn [sendCommand_loop]; unfold TWI_write; emit.
Qed.

Lemma readbytes_no_sleep len : emits (Bus := Bus) no_sleep (readbytes len).
Proof.
  unfold readbytes. apply emits_bind; [unfold TWI_setSlave; emit|intros _].
  generalize 3%nat as retry.
  induction retry as [|retry IH]; cbn [readbytes_loop]; unfold TWI_read; emit.
Qed.

Lemma dataAvailable_no_sleep : emits (Bus := Bus) no_sleep dataAvailable.
Proof.
  pose proof sendCommand_no_sleep. pose proof readbytes_no_sleep.
  unfold dataAvailable, sendCommand_cmd. emit.
Qed.

Lemma readMeasurement_no_sleep : emits (Bus := Bus) no_sleep readMeasurement.
Proof.
  pose proof sendCommand_no_sleep. pose proof readbytes_no_sleep.
  pose proof dataAvailable_no_sleep.
  unfold readMeasurement, sendCommand_cmd. emit.
Qed.

Lemma begin_scd30_no_sleep : emits (Bus := Bus) no_sleep begin_scd30.
Proof.
  pose proof sendCommand_no_sleep.
  unfold begin_scd30, beginMeasuring_void, beginMeasuring, setMeasurementInterval,
    setAutoSelfCalibration, StopMeasurement, sendCommand_arg, sendCommand_cmd.
  emit.
Qed.

(** The poll sleeps one second after each query that found nothing, and
    gives up after the query that follows the last retry. *)
Lemma poll_loop_slept retry : forall s : Driver Bus,
  exists evs,
    log (snd (poll_loop retry s)) = log s ++ evs /\
    0 <= slept evs <= Z.of_nat retry + 1.
Proof.
  induction retry as [|retry IH]; intros s; cbn [poll_loop]; rewrite bind_run;
    destruct (dataAvailable_no_sleep s) as (e1 & H1 & P1);
    apply no_sleep_slept in P1;
    destruct (dataAvailable s) as [stat s1]; cbn [fst snd] in *;
    destruct stat; cbn [negb].
  - exists e1. cbn [ret snd]. split; [exact H1 | lia].
  - exists (e1 ++ [OpSleep 1]). cbn. rewrite H1, slept_app, P1, <- app_assoc.
    split; [reflexivity | cbn; lia].
  - exists e1. cbn [ret snd]. split; [exact H1 | lia].
  - rewrite bind_run. cbn [sleep modify fst snd].
    match goal with
    | |- context [poll_loop retry ?x] => destruct (IH x) as (e2 & H2 & P2)
    end.
    exists (e1 ++ [OpSleep 1] ++ e2). rewrite H2. cbn [log]. rewrite H1.
    rewrite !slept_app, P1, <- !app_assoc.
    split; [reflexivity | cbn [slept fold_right]; lia].
Qed.

(** X12. [StartSingleMeasurement] always returns, after sleeping at most
    11 seconds in all. *)
Theorem single_measurement_sleeps_at_most_11 (s : Driver Bus) :
  exists evs,
    log (snd (StartSingleMeasurement s)) = log s ++ evs /\
    0 <= slept evs <= 11.
Proof.
  unfold StartSingleMeasurement.
  rewrite !bind_run. cbn [get modify ret fst snd].
  set (s0 := set_interval 2 (set_asc false s)).
  destruct (begin_scd30_no_sleep s0) as (e1 & H1 & P1).
  apply no_sleep_slept in P1. change (log s0) with (log s) in H1.
  assert (Hstop : forall s2 : Driver Bus, exists e3,
    log (set_interval (_interval s) (set_asc (_asc s) (snd (StopMeasurement s2))))
    = log s2 ++ e3 /\ slept e3 = 0).
  { intros s2. destruct (sendCommand_no_sleep CMD_STOP_MEAS 0 2 s2) as (e3 & H3 & P3).
    exists e3. split; [exact H3 | apply no_sleep_slept, P3]. }
  destruct (begin_scd30 s0) as [started s1]. cbn [fst snd] in *.
  destruct started; cbn [negb].
  - rewrite bind_run.
    destruct (poll_loop_slept 10 s1) as (e2 & H2 & P2).
    destruct (poll_loop 10 s1) as [stat s2]. cbn [fst snd] in *.
    change (Z.of_nat 10 + 1) with 11 in P2.
    destruct stat.
    + destruct (readMeasurement_no_sleep s2) as (e4 & H4 & P4).
      apply no_sleep_slept in P4.
      destruct (Hstop (snd (readMeasurement s2))) as (e3 & H3 & P3).
      exists (e1 ++ e2 ++ e4 ++ e3). rewrite H3, H4, H2, H1.
      rewrite !slept_app, P1, P3, P4, <- !app_assoc.
      split; [reflexivity | lia].
    + cbn [ret fst snd]. destruct (Hstop s2) as (e3 & H3 & P3).
      exists (e1 ++ e2 ++ e3). rewrite H3, H2, H1.
      rewrite !slept_app, P1, P3, <- !app_assoc.
      split; [reflexivity | lia].
  - cbn [ret fst snd]. destruct (Hstop s1) as (e3 & H3 & P3).
    exists (e1 ++ e3). rewrite H3, H1, slept_app, P1, P3, <- app_assoc.
    split; [reflexivity | lia].
Qed.

(** X13. After a [readMeasurement] that succeeded, one call each of
    [getCO2], [getHumidity] and [getTemperature], the order in which the
    program prints them, returns the sample just read and puts nothing on
    the bus; the three already-reported flags are then set again. *)
Theorem accessors_after_a_read_use_the_cache (s : Driver Bus) :
  fst (readMeasurement s) = true ->
  let s1 := snd (readMeasurement s) in
  let s2 := snd (getCO2 s1) in
  let s3 := snd (getHumidity s2) in
  let s4 := snd (getTemperature s3) in
  fst (getCO2 s1) = f32_to_u16 (_co2 s1) /\
  fst (getHumidity s2) = _humidity s1 /\
  fst (getTemperature s3) = _temperature s1 /\
  log s4 = log s1 /\ TWI s4 = TWI s1 /\
  cache s4 = (_co2 s1, _temperature s1, _humidity s1, (true, true, true)).
Proof.
  intros Hok. pose proof (readMeasurement_cache s) as Hc. rewrite Hok in Hc.
  destruct Hc as (buff & _ & Hc). cbv zeta.
  set (s1 := snd (readMeasurement s)) in *.
  unfold cache, decoded in Hc. injection Hc as _ _ _ Hf1 Hf2 Hf3.
  rewrite (getCO2_run s1), Hf1. cbn [fst snd].
  rewrite (getHumidity_run (set_co2HasBeenReported true s1)).
  change (humidityHasBeenReported (set_co2HasBeenReported true s1))
    with (humidityHasBeenReported s1). rewrite Hf3. cbn [fst snd].
  rewrite getTemperature_run.
  change (temperatureHasBeenReported
            (set_humidityHasBeenReported true (set_co2HasBeenReported true s1)))
    with (temperatureHasBeenReported s1). rewrite Hf2. cbn [fst snd].
  repeat split.
Qed.

(** X14. An accessor never reports a failure: when no new sample can be
    read, it returns the value already in the cache, however old, and the
    three cached values stay as they are. *)
Theorem accessors_fall_back_on_the_cache (s : Driver Bus) :
  fst (readMeasurement s) = false ->
  (fst (getCO2 s) = f32_to_u16 (_co2 s) /\
   fst (getHumidity s) = _humidity s /\
   fst (getTemperature s) = _temperature s) /\
  (let values := fun t : Driver Bus => (_co2 t, _temperature t, _humidity t) in
   values (snd (getCO2 s)) = values s /\
   values (snd (getHumidity s)) = values s /\
   values (snd (getTemperature s)) = values s).
Proof.
  intros Hfail. pose proof (readMeasurement_cache s) as Hc. rewrite Hfail in Hc.
  unfold cache in Hc. injection Hc as H1 H2 H3 _ _ _.
  rewrite getCO2_run, getHumidity_run, getTemperature_run. cbv zeta.
  destruct (co2HasBeenReported s), (humidityHasBeenReported s),
    (temperatureHasBeenReported s);
    cbn [fst snd _co2 _temperature _humidity set_co2HasBeenReported
         set_humidityHasBeenReported set_temperatureHasBeenReported];
    rewrite ?H1, ?H2, ?H3; repeat split.
Qed.

End Waiting.

(** X13 on a device that is ready and answers with a sample. *)
Lemma accessors_after_a_read_use_the_cache_witness :
  let s := device [ready; sample] in
  let s1 := snd (readMeasurement s) in
  fst (readMeasurement s) = true /\
  fst (getCO2 s1) = 439 /\
  log (snd (getTemperature (snd (getHumidity (snd (getCO2 s1)))))) = log s1.
Proof.
  cbv zeta.
  assert (H : fst (readMeasurement (device [ready; sample])) = true) by reflexivity.
  split; [exact H|]. split; [reflexivity|].
  exact (proj1 (proj2 (proj2 (proj2
    (accessors_after_a_read_use_the_cache (device [ready; sample]) H))))).
Defined.

(** X14 on a device that is not ready, with a sample from before in the
    cache. *)
Lemma accessors_fall_back_on_the_cache_witness :
  let s := set_co2 0x43DBCB8C (device [not_ready]) in
  fst (readMeasurement s) = false /\
  fst (getCO2 s) = 439 /\
  fst (getCO2 s) = f32_to_u16 (_co2 s).
Proof.
  cbv zeta.
  assert (H : fst (readMeasurement (set_co2 0x43DBCB8C (device [not_ready]))) = false)
    by reflexivity.
  split; [exact H|]. split; [reflexivity|].
  exact (proj1 (proj1 (accessors_fall_back_on_the_cache _ H))).
Defined.

(** ** The options and the hardware set-up *)

Lemma par_ok_init_variables : par_ok init_variables.
Proof. unfold par_ok, init_variables. cbn. lia. Qed.

Lemma parse_cmdline_keeps_par_ok opt value scd :
  par_ok scd ->
  match parse_cmdline opt value scd with
  | Continue scd' => par_ok scd'
  | Exit => True
  end.
Proof.
  unfold par_ok. intros (Hex & Hi & Hf & Ho & Ha & Hp).
  destruct opt; unfold parse_cmdline; cbv zeta;
    cbn [asc stop_cm perform_single interval frc temp_offset altitude pressure].
  - cbn. tauto.
  - cbn. tauto.
  - destruct (Z.ltb_spec (s16 value) (-1520)); [exact I|].
    destruct (Z.ltb_spec 3040 (s16 value)); [exact I|]. cbn [orb].
    destruct (Z.eqb_spec (pressure scd) (-1)); [|exact I].
    cbn. repeat split; auto; lia.
  - destruct (Z.eqb_spec (s16 value) 0), (Z.ltb_spec (s16 value) 700),
      (Z.ltb_spec 1200 (s16 value)); cbn [negb andb orb]; try exact I;
      destruct (Z.eqb_spec (altitude scd) (-1)); try exact I;
      cbn; repeat split; auto; lia.
  - destruct (Z.ltb_spec (u16 value) 2); [exact I|].
    destruct (Z.ltb_spec 1800 (u16 value)); [exact I|].
    cbn. repeat split; auto; lia.
  - destruct (Z.ltb_spec (s16 (u16 value)) 0); [exact I|].
    destruct (Z.ltb_spec 25 (s16 (u16 value))); [exact I|].
    cbn. repeat split; auto; lia.
  - destruct (Z.ltb_spec (s16 (u16 value)) 400); [exact I|].
    destruct (Z.ltb_spec 2000 (s16 (u16 value))); [exact I|].
    cbn. repeat split; auto; lia.
  - cbn. repeat split; auto; lia.
  - cbn. repeat split; auto; lia.
Qed.

(** X15. Whatever options it is given, the option loop either ends the
    program or hands on parameters of which at most one of altitude and
    pressure is set, the interval is 0 or within 2 to 1800, the forced
    recalibration is unset or within 400 to 2000, the temperature offset is
    unset or within 0 to 25, the altitude is within -1520 to 3040 and the
    pressure is unset, 0, or within 700 to 1200. *)
Theorem parse_options_hands_on_valid_parameters (opts : list (scd_option * Z)) :
  match parse_options opts init_variables with
  | Continue scd => par_ok scd
  | Exit => True
  end.
Proof.
  generalize par_ok_init_variables. generalize init_variables as scd.
  induction opts as [|[opt value] opts IH]; intros scd Hok; cbn [parse_options].
  - exact Hok.
  - pose proof (parse_cmdline_keeps_par_ok opt value scd Hok) as Hstep.
    destruct (parse_cmdline opt value scd) as [scd'|]; [|exact I].
    apply IH, Hstep.
Qed.

Section HardwareSetup.

Context {Bus : Type} `{TW : TwoWire Bus} `{TC : TwoWireClose Bus}
  `{FL : Float32} `{FI : Float32OfInt}.


Lemma closeout_exits (s : Driver Bus) : fst (closeout s) = Exited EXIT_SUCCESS.
Proof. reflexivity. Qed.


End HardwareSetup.

(** ** What [begin] and the single measurement leave behind *)

Section Aftermath.

Context {Bus : Type} `{TW : TwoWire Bus} `{FL : Float32}.

Lemma begin_preserves_cache asc interval : preserves (Bus := Bus) cache (begin asc interval).
Proof.
  pose proof begin_scd30_preserves_cache.
  unfold begin. frame.
Qed.

(** X6. [begin] records its two arguments in the shadow configuration,
    whatever comes of the set-up: whether the hardware could be initialised,
    and whether the sensor accepted the commands. It leaves the cached sample
    and its flags alone. *)
Theorem begin_records_its_arguments (asc : bool) (interval : Z) (s : Driver Bus) :
  shadow (snd (begin asc interval s)) = (asc, u16 interval) /\
  cache (snd (begin asc interval s)) = cache s.
Proof. split; [apply begin_shadow_args | apply begin_preserves_cache]. Qed.

Lemma setAutoSelfCalibration_spec enable (s : Driver Bus) :
  exists results,
    log (snd (setAutoSelfCalibration enable s))
    = log s ++ write_events (frame_arg COMMAND_AUTOMATIC_SELF_CALIBRATION
                               (if enable then 1 else 0)) results /\
    attempts is_ok 3 (fst (setAutoSelfCalibration enable s)) results = true.
Proof.
  unfold setAutoSelfCalibration. rewrite !bind_run. cbn [modify get fst snd _asc set_asc].
  destruct enable.
  - apply (sendCommand_arg_spec COMMAND_AUTOMATIC_SELF_CALIBRATION 1 (set_asc true s)).
  - apply (sendCommand_arg_spec COMMAND_AUTOMATIC_SELF_CALIBRATION 0 (set_asc false s)).
Qed.

(** With an interval set, [begin_scd30] returns [true] exactly when the
    calibration command, the last it sends, was accepted. *)
Lemma begin_scd30_true_ends_with_asc (s : Driver Bus) :
  0 < _interval s -> fst (begin_scd30 s) = true ->
  exists evs,
    log (snd (begin_scd30 s))
    = log s ++ evs ++
      [OpWrite (frame_arg COMMAND_AUTOMATIC_SELF_CALIBRATION
                  (if _asc s then 1 else 0)) I2C_OK].
Proof.
  intros Hi. unfold begin_scd30. rewrite bind_run. cbn [get fst snd].
  destruct (Z.ltb_spec 0 (_interval s)); [|lia].
  assert (Hk : forall s1 : Driver Bus, _asc s1 = _asc s ->
    fst ((asc <- get _asc ;; setAutoSelfCalibration asc) s1) = true ->
    exists evs,
      log (snd ((asc <- get _asc ;; setAutoSelfCalibration asc) s1))
      = log s1 ++ evs ++
        [OpWrite (frame_arg COMMAND_AUTOMATIC_SELF_CALIBRATION
                    (if _asc s then 1 else 0)) I2C_OK]).
  { intros s1 Ha. rewrite bind_run. cbn [get fst snd]. rewrite Ha. intros Hok.
    destruct (setAutoSelfCalibration_spec (_asc s) s1) as (results & Hlog & Hatt).
    rewrite Hok in Hatt.
    apply attempts_succeeded in Hatt as (fails & a & -> & Hok_a & _).
    destruct a; try discriminate.
    exists (write_events (frame_arg COMMAND_AUTOMATIC_SELF_CALIBRATION
                            (if _asc s then 1 else 0)) fails).
    rewrite Hlog. unfold write_events. rewrite map_app. reflexivity. }
  rewrite bind_run.
  pose proof (beginMeasuring_preserves 0 s) as Hb.
  destruct (beginMeasuring_extends 0 s) as [e1 He1].
  fold (@beginMeasuring_void Bus TW) in *.
  destruct (beginMeasuring_void s) as [started s1]. cbn [fst snd] in *.
  assert (Ha1 : _asc s1 = _asc s) by (apply (f_equal fst) in Hb; exact Hb).
  rewrite bind_run. destruct started.
  - rewrite bind_run. cbn [get fst snd].
    pose proof (setMeasurementInterval_shadow (_interval s1) s1) as Hs.
    destruct (setMeasurementInterval_extends (_interval s1) s1) as [e2 He2].
    destruct ((u16 (_interval s1) <? 2) || (1800 <? u16 (_interval s1))).
    + rewrite Hs. cbn. discriminate.
    + apply (f_equal fst) in Hs. cbn [shadow fst] in Hs.
      destruct (setMeasurementInterval (_interval s1) s1) as [ok s2].
      cbn [fst snd] in *. destruct ok; cbn [negb]; [|cbn; discriminate].
      intros Hok. destruct (Hk s2 ltac:(congruence) Hok) as [evs Hevs].
      exists (e1 ++ e2 ++ evs). rewrite Hevs, He2, He1, <- !app_assoc. reflexivity.
  - cbn [ret fst snd negb]. intros Hok.
    destruct (Hk s1 Ha1 Hok) as [evs Hevs].
    exists (e1 ++ evs). rewrite Hevs, He1, <- !app_assoc. reflexivity.
Qed.

(** X17. A single measurement that succeeds has told the sensor to switch
    auto-self-calibration off, and the sensor has accepted it, while the
    shadow flag is put back to what it was: after the call the shadow may say
    on where the sensor was told off. *)
Theorem single_measurement_switches_asc_off (s : Driver Bus) :
  fst (StartSingleMeasurement s) = true ->
  _asc (snd (StartSingleMeasurement s)) = _asc s /\
  exists before after,
    log (snd (StartSingleMeasurement s))
    = log s ++ before ++
      OpWrite (frame_arg COMMAND_AUTOMATIC_SELF_CALIBRATION 0) I2C_OK :: after.
Proof.
  unfold StartSingleMeasurement.
  rewrite !bind_run. cbn [get modify ret fst snd].
  set (s0 := set_interval 2 (set_asc false s)).
  pose proof (begin_scd30_true_ends_with_asc s0 ltac:(cbn; lia)) as Hb.
  change (log s0) with (log s) in Hb. change (_asc s0) with false in Hb.
  destruct (begin_scd30 s0) as [started s1]. cbn [fst snd] in *.
  destruct started; cbn [negb]; [|cbn; discriminate].
  destruct (Hb eq_refl) as [e1 He1]. intros _.
  split; [reflexivity|].
  set (body := stat <- poll_loop 10 ;; (if stat then readMeasurement else ret stat)).
  assert (Hbody : extends (Bus := Bus) body).
  { pose proof (poll_loop_extends 10). pose proof readMeasurement_extends.
    unfold body. frame. }
  destruct (Hbody s1) as [e2 He2].
  destruct (StopMeasurement_extends (snd (body s1))) as [e3 He3].
  exists e1, (e2 ++ e3).
  cbn [log set_interval set_asc]. rewrite He3, He2, He1.
  rewrite <- !app_assoc. reflexivity.
Qed.

End Aftermath.

(** X17 on a device that gets ready: the flag is on before and after, the
    sensor was told off. *)
Lemma single_measurement_switches_asc_off_witness :
  let s := device [not_ready; ready; ready; sample] in
  fst (StartSingleMeasurement s) = true /\
  _asc s = true /\
  _asc (snd (StartSingleMeasurement s)) = _asc s /\
  exists before after,
    log (snd (StartSingleMeasurement s))
    = log s ++ before ++
      OpWrite (frame_arg COMMAND_AUTOMATIC_SELF_CALIBRATION 0) I2C_OK :: after.
Proof.
  cbv zeta.
  assert (H : fst (StartSingleMeasurement
                     (device [not_ready; ready; ready; sample])) = true) by reflexivity.
  split; [exact H|]. split; [reflexivity|].
  exact (single_measurement_switches_asc_off _ H).
Defined.
